(** * user-reminders: a shallow embedding of the reminder manager

    The development follows the Python sources:
    - [reminders/const.py]: [ReminderItemFactory] ([normalize_date], [build])
      and [ReminderItem];
    - [user_reminders/reminder_entity.py]: [find_in_reminder_list],
      [load_reminders] and the list entity's create / update / remove / get;
    - [user_reminders/scheduler.py]: [last_fired_in_over_24h] and the poll
      tick [_check];
    - [user_reminders/intents.py]: [ReminderTimeResolver] and
      [parse_due_from_slots].

    Modelling choices, stated once:
    - a [datetime] is a count of microseconds on one time axis that starts at
      midnight of day ordinal 0 (so that [toordinal d = d / DAY]); all clocks
      and all stored timestamps live on this axis.  Python's range limits
      (years 1..9999) and the naive/aware distinction are not modelled;
    - strings are ASCII strings;
    - a Python exception is a value of [exn]; code that may raise returns a
      [result];
    - a Python [dict] is an association list in insertion order with unique
      keys, since the code iterates over [.values()];
    - the clock is an explicit argument of every function that reads it;
      a function that reads it in several places has one argument per
      place where the readings can differ in effect. *)

From Stdlib Require Import ZArith List String Ascii Bool Lia.
Import ListNotations.
Open Scope string_scope.
Open Scope Z_scope.

(** ** Exceptions and results *)

Inductive exn : Type :=
| ValueError
| TypeError
| KeyError
| AttributeError
| AssertionError
| Unauthorized.

Inductive result (A : Type) : Type :=
| Ok (a : A)
| Raise (e : exn).
Arguments Ok {A} a.
Arguments Raise {A} e.

Definition bind {A B : Type} (r : result A) (k : A -> result B) : result B :=
  match r with
  | Ok a => k a
  | Raise e => Raise e
  end.

Declare Scope py_scope.
Delimit Scope py_scope with py.
Notation "x <- c ;; k" := (bind c (fun x => k))
  (at level 100, c at next level, right associativity) : py_scope.
Open Scope py_scope.

(** ** Strings as Python uses them *)

Module PyStr.

Definition is_digit (c : ascii) : bool :=
  let n := nat_of_ascii c in (48 <=? n)%nat && (n <=? 57)%nat.

(** [str.isspace] on the ASCII range: TAB..CR, FS..US and the blank. *)
Definition is_space (c : ascii) : bool :=
  let n := nat_of_ascii c in
  ((9 <=? n)%nat && (n <=? 13)%nat) || ((28 <=? n)%nat && (n <=? 32)%nat).

Definition lower_char (c : ascii) : ascii :=
  let n := nat_of_ascii c in
  if (65 <=? n)%nat && (n <=? 90)%nat then ascii_of_nat (n + 32) else c.

Fixpoint lower (s : string) : string :=
  match s with
  | EmptyString => EmptyString
  | String c t => String (lower_char c) (lower t)
  end.

Fixpoint lstrip (s : string) : string :=
  match s with
  | EmptyString => EmptyString
  | String c t => if is_space c then lstrip t else s
  end.

Fixpoint rev_string (s : string) (acc : string) : string :=
  match s with
  | EmptyString => acc
  | String c t => rev_string t (String c acc)
  end.

Definition rstrip (s : string) : string :=
  rev_string (lstrip (rev_string s "")) "".

Definition strip (s : string) : string := rstrip (lstrip s).

(** truthiness of a [str] *)
Definition nonempty (s : string) : bool :=
  match s with EmptyString => false | _ => true end.

Definition digit_val (c : ascii) : Z := Z.of_nat (nat_of_ascii c) - 48.

(** value of a string of decimal digits, most significant first *)
Fixpoint digits_val (s : string) (acc : Z) : Z :=
  match s with
  | EmptyString => acc
  | String c t => digits_val t (10 * acc + digit_val c)
  end.

Fixpoint all_digits (s : string) : bool :=
  match s with
  | EmptyString => true
  | String c t => is_digit c && all_digits t
  end.

(** the digits of an integer literal: digits, with single underscores
    allowed between two digits.  [prev] tells whether the previous
    character was a digit. *)
Fixpoint int_body (s : string) (prev : bool) (acc : Z) : option Z :=
  match s with
  | EmptyString => if prev then Some acc else None
  | String c t =>
      if is_digit c then int_body t true (10 * acc + digit_val c)
      else if (Ascii.eqb c "_"%char) && prev then int_body t false acc
      else None
  end.

(** [int(s)] for a string argument, base 10: surrounding whitespace is
    dropped, one sign is allowed.  [None] stands for [ValueError]. *)
Definition int (s : string) : option Z :=
  match strip s with
  | String "-"%char t => option_map Z.opp (int_body t false 0)
  | String "+"%char t => int_body t false 0
  | t => int_body t false 0
  end.

(** [re.sub(r"[^\d]", "", s)] *)
Fixpoint only_digits (s : string) : string :=
  match s with
  | EmptyString => EmptyString
  | String c t => if is_digit c then String c (only_digits t) else only_digits t
  end.

Definition mem (s : string) (l : list string) : bool :=
  existsb (String.eqb s) l.

(** [needle in hay] for two strings *)
Fixpoint is_prefix (p s : string) : bool :=
  match p, s with
  | EmptyString, _ => true
  | String a p', String b s' => Ascii.eqb a b && is_prefix p' s'
  | String _ _, EmptyString => false
  end.

Fixpoint contains (needle hay : string) : bool :=
  is_prefix needle hay
  || match hay with
     | EmptyString => false
     | String _ rest => contains needle rest
     end.

End PyStr.

(** ** datetime, date, timedelta *)

Module PyDatetime.

Definition datetime := Z.
Definition timedelta := Z.

Definition SECOND : timedelta := 1000000.
Definition MINUTE : timedelta := 60 * SECOND.
Definition HOUR : timedelta := 60 * MINUTE.
Definition DAY : timedelta := 24 * HOUR.
Definition WEEK : timedelta := 7 * DAY.

(** [d.toordinal()] and the clock fields *)
Definition toordinal (d : datetime) : Z := d / DAY.
Definition hour (d : datetime) : Z := (d mod DAY) / HOUR.
Definition minute (d : datetime) : Z := (d mod HOUR) / MINUTE.
Definition second (d : datetime) : Z := (d mod MINUTE) / SECOND.
Definition microsecond (d : datetime) : Z := d mod SECOND.

(** [d.weekday()]: Monday is 0; day ordinal 1 is a Monday. *)
Definition weekday (d : datetime) : Z := (toordinal d + 6) mod 7.

(** [datetime.combine(date, time(hour=h, minute=m, second=s))] with the
    date given by its ordinal. *)
Definition combine (ordinal h m s : Z) : datetime :=
  ordinal * DAY + h * HOUR + m * MINUTE + s * SECOND.

(** [d.replace(hour=h, minute=m, second=0, microsecond=0)]; the
    constructor rejects an hour outside 0..23 or a minute outside 0..59
    with [ValueError]. *)
Definition replace_time (d : datetime) (h m : Z) : result datetime :=
  if (0 <=? h) && (h <=? 23) && (0 <=? m) && (m <=? 59)
  then Ok (combine (toordinal d) h m 0)
  else Raise ValueError.

(** The proleptic Gregorian calendar, as in [datetime.py]. *)
Definition is_leap (y : Z) : bool :=
  (y mod 4 =? 0) && (negb (y mod 100 =? 0) || (y mod 400 =? 0)).

Definition days_before_year (y : Z) : Z :=
  let y1 := y - 1 in y1 * 365 + y1 / 4 - y1 / 100 + y1 / 400.

Definition days_in_month (y m : Z) : Z :=
  if m =? 2 then (if is_leap y then 29 else 28)
  else if (m =? 4) || (m =? 6) || (m =? 9) || (m =? 11) then 30
  else 31.

Definition DAYS_BEFORE_MONTH (m : Z) : Z :=
  nth (Z.to_nat m) [0; 0; 31; 59; 90; 120; 151; 181; 212; 243; 273; 304; 334] 0.

Definition days_before_month (y m : Z) : Z :=
  DAYS_BEFORE_MONTH m + (if (2 <? m) && is_leap y then 1 else 0).

Definition ymd2ord (y m d : Z) : Z :=
  days_before_year y + days_before_month y m + d.

Definition ord2ymd (n0 : Z) : Z * Z * Z :=
  let n := n0 - 1 in
  let n400 := n / 146097 in
  let n := n mod 146097 in
  let n100 := n / 36524 in
  let n := n mod 36524 in
  let n4 := n / 1461 in
  let n := n mod 1461 in
  let n1 := n / 365 in
  let n := n mod 365 in
  let year := n400 * 400 + 1 + n100 * 100 + n4 * 4 + n1 in
  if (n1 =? 4) || (n100 =? 4) then (year - 1, 12, 31)
  else
    let leapyear := (n1 =? 3) && (negb (n4 =? 24) || (n100 =? 3)) in
    let month := (n + 50) / 32 in
    let preceding :=
      DAYS_BEFORE_MONTH month + (if (2 <? month) && leapyear then 1 else 0) in
    if n <? preceding
    then (year, month - 1, n - (preceding - days_in_month year (month - 1)) + 1)
    else (year, month, n - preceding + 1).

Definition year (d : datetime) : Z := fst (fst (ord2ymd (toordinal d))).
Definition month (d : datetime) : Z := snd (fst (ord2ymd (toordinal d))).
Definition day (d : datetime) : Z := snd (ord2ymd (toordinal d)).

(** [datetime(year=y, month=mo, day=d, hour=h, minute=mi, second=s)] *)
Definition mk (y mo d h mi s : Z) : datetime :=
  combine (ymd2ord y mo d) h mi s.

(** [d.replace(year=y, month=mo, day=dd, hour=h, minute=0, second=0,
    microsecond=0)]: [ValueError] when the day does not exist. *)
Definition replace_date_time (y mo dd h : Z) : result datetime :=
  if (1 <=? mo) && (mo <=? 12) && (1 <=? dd) && (dd <=? days_in_month y mo)
  then Ok (mk y mo dd h 0 0)
  else Raise ValueError.

End PyDatetime.
Import PyDatetime.

(** ** Python values, records and dictionaries *)

(** The values that reach this code: [None], a [str], a [datetime], or a
    [date] (given by its ordinal). *)
Inductive pyval : Type :=
| PyNone
| PyStr (s : string)
| PyDatetime (d : datetime)
| PyDate (ordinal : Z).

Definition truthy (v : pyval) : bool :=
  match v with
  | PyNone => false
  | PyStr s => PyStr.nonempty s
  | PyDatetime _ => true
  | PyDate _ => true
  end.

(** [a == b]; a [datetime] never equals a [date]. *)
Definition py_eqb (a b : pyval) : bool :=
  match a, b with
  | PyNone, PyNone => true
  | PyStr s, PyStr t => String.eqb s t
  | PyDatetime d, PyDatetime e => Z.eqb d e
  | PyDate d, PyDate e => Z.eqb d e
  | _, _ => false
  end.

(** [a or b] *)
Definition py_or (a b : pyval) : pyval := if truthy a then a else b.

Module Dict.
Section WithTypes.
Context {K V : Type} (eqb : K -> K -> bool).

Definition t := list (K * V).

Fixpoint get (k : K) (d : t) : option V :=
  match d with
  | [] => None
  | (k', v) :: rest => if eqb k k' then Some v else get k rest
  end.

(** [d[k] = v]: an existing key keeps its position, a new key goes last. *)
Fixpoint set (k : K) (v : V) (d : t) : t :=
  match d with
  | [] => [(k, v)]
  | (k', v') :: rest =>
      if eqb k k' then (k', v) :: rest else (k', v') :: set k v rest
  end.

(** [del d[k]]; [None] stands for [KeyError]. *)
Fixpoint del (k : K) (d : t) : option t :=
  match d with
  | [] => None
  | (k', v') :: rest =>
      if eqb k k' then Some rest
      else option_map (cons (k', v')) (del k rest)
  end.

Definition values (d : t) : list V := map snd d.
Definition keys (d : t) : list K := map fst d.
End WithTypes.
Arguments t : clear implicits.
End Dict.

(** A stored record: a [dict] from field name to value;
    [r.get(key)] and [r.get(key, default)]. *)
Definition rawrec := Dict.t string pyval.

Definition rget (r : rawrec) (key : string) : pyval :=
  match Dict.get String.eqb key r with Some v => v | None => PyNone end.

Definition rget_default (r : rawrec) (key : string) (default : pyval) : pyval :=
  match Dict.get String.eqb key r with Some v => v | None => default end.

(** The reminder collection: a [dict] from uid to stored record. *)
Definition store := Dict.t pyval rawrec.

(** [ReminderItem]: a plain attribute bag, every attribute dynamically typed. *)
Record ReminderItem : Type := mkReminderItem {
  uid : pyval;
  list_id : pyval;
  summary : pyval;
  due : pyval;
  user_id : pyval;
  last_fired : pyval
}.

Record ReminderItemFactory : Type := mkReminderItemFactory {
  f_uid : pyval;
  f_list_id : pyval;
  f_summary : pyval;
  f_due : pyval
}.

(** ** The host: users, calls, the event bus, the store *)

Record User : Type := mkUser {
  u_id : string;
  u_name : pyval
}.

Record ServiceCall : Type := mkServiceCall {
  context_user_id : pyval;
  origin_event_type : option string;
  data_user : pyval
}.

(** Lines written with [LOGGER.warning] and [LOGGER.error]. *)
Inductive logline : Type :=
| LogBadDateFormat (uid : pyval) (s : string)
| LogUnknownDateType (uid : pyval) (v : pyval)
| LogItemNotFound (uid : pyval)
| LogUnknownUser (ctx_user : pyval)
| LogLoaded (count : nat) (user_name : pyval)
| LogFiring (summary : pyval).

(** A non-blocking [hass.services.async_call("reminders", UPDATE_ITEM, ...)] *)
Record UpdateCall : Type := mkUpdateCall {
  c_entity_id : string;
  c_uid : pyval;
  c_summary : pyval;
  c_due : string;
  c_last_fired : datetime;
  c_context_user : pyval
}.

Record World : Type := mkWorld {
  users : list User;                       (* hass.auth *)
  reminders : store;                      (* hass.data[DOMAIN]["reminders"] *)
  saves : list store;                      (* arguments of store.async_save, oldest first *)
  bus : list rawrec;                       (* hass.bus.async_fire(EVENT_REMINDER_DUE, ...) *)
  calls : list UpdateCall;                 (* queued service calls *)
  log : list logline;
  state_writes : nat;                      (* async_write_ha_state() *)
  attr_reminder_items : list ReminderItem; (* self._attr_reminder_items *)
  attr_reminder_list : list rawrec         (* self._attr_reminder_list *)
}.

(** The entity's fixed attributes. *)
Record Entity : Type := mkEntity {
  _user_id : string;
  _user_name : pyval;
  _attr_unique_id : string
}.

(** ** State and exceptions *)

Definition M (A : Type) : Type := World -> result A * World.

Definition ret {A : Type} (a : A) : M A := fun w => (Ok a, w).
Definition raise {A : Type} (e : exn) : M A := fun w => (Raise e, w).
Definition lift {A : Type} (r : result A) : M A := fun w => (r, w).

Definition bindM {A B : Type} (m : M A) (k : A -> M B) : M B :=
  fun w =>
    match m w with
    | (Ok a, w') => k a w'
    | (Raise e, w') => (Raise e, w')
    end.

Notation "x <~ c ;; k" := (bindM c (fun x => k))
  (at level 100, c at next level, right associativity) : py_scope.
Notation "c ;;; k" := (bindM c (fun _ => k))
  (at level 100, right associativity) : py_scope.

Definition get_world : M World := fun w => (Ok w, w).

Definition logger (l : logline) : M unit :=
  fun w => (Ok tt,
    mkWorld (users w) (reminders w) (saves w) (bus w) (calls w)
            (log w ++ [l]) (state_writes w)
            (attr_reminder_items w) (attr_reminder_list w)).

Definition set_reminders (d : store) : M unit :=
  fun w => (Ok tt,
    mkWorld (users w) d (saves w) (bus w) (calls w) (log w) (state_writes w)
            (attr_reminder_items w) (attr_reminder_list w)).

Definition async_save (d : store) : M unit :=
  fun w => (Ok tt,
    mkWorld (users w) (reminders w) (saves w ++ [d]) (bus w) (calls w) (log w)
            (state_writes w) (attr_reminder_items w) (attr_reminder_list w)).

Definition async_fire (payload : rawrec) : M unit :=
  fun w => (Ok tt,
    mkWorld (users w) (reminders w) (saves w) (bus w ++ [payload]) (calls w)
            (log w) (state_writes w)
            (attr_reminder_items w) (attr_reminder_list w)).

Definition async_call (c : UpdateCall) : M unit :=
  fun w => (Ok tt,
    mkWorld (users w) (reminders w) (saves w) (bus w) (calls w ++ [c]) (log w)
            (state_writes w) (attr_reminder_items w) (attr_reminder_list w)).

Definition async_write_ha_state : M unit :=
  fun w => (Ok tt,
    mkWorld (users w) (reminders w) (saves w) (bus w) (calls w) (log w)
            (S (state_writes w))
            (attr_reminder_items w) (attr_reminder_list w)).

Definition set_attr_reminder_items (items : list ReminderItem) : M unit :=
  fun w => (Ok tt,
    mkWorld (users w) (reminders w) (saves w) (bus w) (calls w) (log w)
            (state_writes w) items (attr_reminder_list w)).

Definition set_attr_reminder_list (api : list rawrec) : M unit :=
  fun w => (Ok tt,
    mkWorld (users w) (reminders w) (saves w) (bus w) (calls w) (log w)
            (state_writes w) (attr_reminder_items w) api).

(** ** The time resolver: [user_reminders/intents.py] *)

(** [TWENTY_FOUR_HOUR_FORMAT_REGEX = r"^(\d{1,2}):(\d{2})$"] and
    [TWELVE_HOUR_FORMAT_REGEX = r"^(\d{1,2})(?::(\d{2}))?\s*(am|pm)?$"],
    each as the function [re.match(REGEX, s)] returning its groups. *)
Module Regex.
Import PyStr.

(** [$]: the end of the string, or just before a final newline *)
Definition at_end (s : string) : bool :=
  match s with
  | EmptyString => true
  | String c EmptyString => Ascii.eqb c "010"%char
  | _ => false
  end.

(** [(am|pm)?$] *)
Definition ampm_end (s : string) : option (option string) :=
  match s with
  | String "a"%char (String "m"%char rest) =>
      if at_end rest then Some (Some "am")
      else if at_end s then Some None else None
  | String "p"%char (String "m"%char rest) =>
      if at_end rest then Some (Some "pm")
      else if at_end s then Some None else None
  | _ => if at_end s then Some None else None
  end.

(** [\s*(am|pm)?$], the star taking as much as it can first *)
Fixpoint spaces_ampm_end (s : string) : option (option string) :=
  match s with
  | String c rest =>
      if is_space c then
        match spaces_ampm_end rest with
        | Some g => Some g
        | None => ampm_end s
        end
      else ampm_end s
  | EmptyString => ampm_end s
  end.

(** [(?::(\d{2}))?\s*(am|pm)?$] *)
Definition minutes_spaces_ampm_end (s : string)
  : option (option string * option string) :=
  let without := option_map (fun g => (None, g)) (spaces_ampm_end s) in
  match s with
  | String ":"%char (String d1 (String d2 rest)) =>
      if is_digit d1 && is_digit d2 then
        match spaces_ampm_end rest with
        | Some g => Some (Some (String d1 (String d2 "")), g)
        | None => without
        end
      else without
  | _ => without
  end.

Definition match_twelve_hour (s : string)
  : option (string * option string * option string) :=
  match s with
  | String d1 rest =>
      if is_digit d1 then
        let one :=
          option_map (fun '(m, p) => (String d1 "", m, p))
            (minutes_spaces_ampm_end rest) in
        match rest with
        | String d2 rest2 =>
            if is_digit d2 then
              match minutes_spaces_ampm_end rest2 with
              | Some (m, p) => Some (String d1 (String d2 ""), m, p)
              | None => one
              end
            else one
        | EmptyString => one
        end
      else None
  | EmptyString => None
  end.

(** [:(\d{2})$] *)
Definition colon_minutes_end (s : string) : option string :=
  match s with
  | String ":"%char (String d1 (String d2 rest)) =>
      if is_digit d1 && is_digit d2 && at_end rest
      then Some (String d1 (String d2 ""))
      else None
  | _ => None
  end.

Definition match_twenty_four_hour (s : string) : option (string * string) :=
  match s with
  | String d1 rest =>
      if is_digit d1 then
        let one :=
          option_map (fun m => (String d1 "", m)) (colon_minutes_end rest) in
        match rest with
        | String d2 rest2 =>
            if is_digit d2 then
              match colon_minutes_end rest2 with
              | Some m => Some (String d1 (String d2 ""), m)
              | None => one
              end
            else one
        | EmptyString => one
        end
      else None
  | EmptyString => None
  end.
End Regex.

Module ReminderTimeResolver.

Definition DAY_NAME_TO_WEEKDAY : Dict.t string Z :=
  [("monday", 0); ("mon", 0); ("tuesday", 1); ("tues", 1);
   ("wednesday", 2); ("wed", 2); ("weds", 2); ("thursday", 3); ("thu", 3);
   ("friday", 4); ("fri", 4); ("saturday", 5); ("sat", 5);
   ("sunday", 6); ("sun", 6)].

Definition MONTH_NAME_TO_NUMBER : Dict.t string Z :=
  [("january", 1); ("jan", 1); ("february", 2); ("feb", 2);
   ("march", 3); ("mar", 3); ("april", 4); ("apr", 4); ("may", 5);
   ("june", 6); ("jun", 6); ("july", 7); ("jul", 7);
   ("august", 8); ("aug", 8); ("september", 9); ("sep", 9);
   ("october", 10); ("oct", 10); ("november", 11); ("nov", 11);
   ("december", 12); ("dec", 12)].

Definition TIME_UNIT_TO_TIMEDELTA : Dict.t string timedelta :=
  [("minute", MINUTE); ("minutes", MINUTE); ("hour", HOUR); ("hours", HOUR);
   ("day", DAY); ("days", DAY); ("week", WEEK); ("weeks", WEEK)].

Definition TIME_PERIOD_TO_HOUR : Dict.t string Z :=
  [("morning", 9); ("afternoon", 14); ("evening", 18); ("night", 21)].

Definition UNSET_DATE : datetime := mk 1970 1 1 0 0 0.

(** truthiness of a slot value, [str | None] *)
Definition set_ (slot : option string) : bool :=
  match slot with
  | Some s => PyStr.nonempty s
  | None => false
  end.

Definition slot_text (slot : option string) : string :=
  match slot with
  | Some s => s
  | None => ""
  end.

Definition handle_relative_day (now : datetime) (relative_day : string)
  : option datetime :=
  let relative_day := PyStr.lower relative_day in
  if String.eqb relative_day "today" then Some now
  else if String.eqb relative_day "tomorrow" then Some (now + DAY)
  else if String.eqb relative_day "tonight" then
    let now := if 21 <? hour now then now + DAY else now in
    Some (combine (toordinal now) 21 0 0)
  else if String.eqb relative_day "next week" then Some (now + WEEK)
  else if String.eqb relative_day "this week" then Some now
  else if String.eqb relative_day "this weekend" then
    let days_until_saturday := (5 - weekday now) mod 7 in
    if (days_until_saturday =? 0) && (weekday now =? 5) then Some now
    else Some (now + DAY * days_until_saturday)
  else if String.eqb relative_day "next weekend" then
    let days_until_saturday := (5 - weekday now) mod 7 in
    Some (now + DAY * (days_until_saturday + 7))
  else None.

Definition handle_day_name (now : datetime) (day_name : string)
  : option datetime :=
  match Dict.get String.eqb (PyStr.lower day_name) DAY_NAME_TO_WEEKDAY with
  | Some target_weekday =>
      let days_ahead := target_weekday - weekday now in
      let days_ahead := if days_ahead <=? 0 then days_ahead + 7 else days_ahead in
      Some (now + DAY * days_ahead)
  | None => None
  end.

(** [int(time_number)] failing is caught; an unknown unit falls off the
    end of the function: both give [None]. *)
Definition handle_relative_time (now : datetime) (time_number time_unit : string)
  : option datetime :=
  match PyStr.int time_number with
  | Some num =>
      match Dict.get String.eqb (PyStr.lower time_unit) TIME_UNIT_TO_TIMEDELTA with
      | Some unit_value => Some (now + unit_value * num)
      | None => None
      end
  | None => None
  end.

(** The [int(...)] of the ordinal's digits is outside the [try]. *)
Definition handle_month_name_with_ordinal (now : datetime)
    (month_name ordinal : string) : result (option datetime) :=
  match Dict.get String.eqb (PyStr.lower month_name) MONTH_NAME_TO_NUMBER with
  | Some month_num =>
      match PyStr.int (PyStr.only_digits ordinal) with
      | None => Raise ValueError
      | Some day_num =>
          let y := year now in
          let y :=
            if (month_num <? month now)
               || ((month_num =? month now) && (day_num <? day now))
            then y + 1 else y in
          match replace_date_time y month_num day_num 9 with
          | Ok d => Ok (Some d)
          | Raise _ => Ok None
          end
      end
  | None => Ok None
  end.

Definition is_in_relative_minutes (time_number time_unit : option string) : bool :=
  match time_number, time_unit with
  | Some _, Some u => PyStr.mem u ["minute"; "hour"; "minutes"; "hours"]
  | _, _ => false
  end.

(** [parse_hour_and_minute(hour, minute)].  The 24-hour pattern is matched
    against the literal text ["{hour}:{minute}"], as the source writes it. *)
Definition parse_hour_and_minute (hour_s : string) (minute_s : option string)
  : option Z * option Z :=
  let hour_s := PyStr.strip (PyStr.lower hour_s) in
  let given := set_ minute_s in
  let minute_s :=
    if given
    then option_map (fun m => PyStr.strip (PyStr.lower m)) minute_s
    else minute_s in
  let first :=
    if given then Regex.match_twenty_four_hour "{hour}:{minute}" else None in
  match first with
  | Some (g1, g2) =>
      (Some (PyStr.digits_val g1 0), Some (PyStr.digits_val g2 0))
  | None =>
      let time_str :=
        if set_ minute_s then hour_s ++ ":" ++ slot_text minute_s else hour_s in
      match Regex.match_twelve_hour time_str with
      | Some (g1, g2, period) =>
          let hour_v := PyStr.digits_val g1 0 in
          let minute_v := option_map (fun g => PyStr.digits_val g 0) g2 in
          let hour_v :=
            match period with
            | Some p =>
                if String.eqb p "pm" && negb (hour_v =? 12) then hour_v + 12
                else if String.eqb p "am" && (hour_v =? 12) then 0
                else hour_v
            | None => hour_v
            end in
          (Some hour_v, minute_v)
      | None =>
          if PyStr.mem hour_s ["noon"; "midday"] then (Some 12, Some 0)
          else if String.eqb hour_s "midnight" then (Some 0, Some 0)
          else (None, None)
      end
  end.

(** truthiness of an [int | None], and [n or 0] *)
Definition int_truthy (n : option Z) : bool :=
  match n with
  | Some v => negb (v =? 0)
  | None => false
  end.

Definition int_or_0 (n : option Z) : Z :=
  match n with
  | Some v => v
  | None => 0
  end.

(** [apply_time_of_day]; [now1] and [now2] are the two readings of
    [dt_util.now()], in the order of the source. *)
Definition apply_time_of_day (now1 now2 : datetime) (result_date : datetime)
    (time_period hour_number minute_number : option string) : result datetime :=
  let result_date :=
    if toordinal result_date =? toordinal UNSET_DATE then now1 else result_date in
  result_date <-
    (if set_ time_period then
       match Dict.get String.eqb (PyStr.lower (slot_text time_period))
               TIME_PERIOD_TO_HOUR with
       | Some h => replace_time result_date h 0
       | None => Ok result_date
       end
     else if set_ hour_number then
       let '(parsed_hour, parsed_minute) :=
         parse_hour_and_minute (slot_text hour_number) minute_number in
       if int_truthy parsed_hour
       then replace_time result_date (int_or_0 parsed_hour) (int_or_0 parsed_minute)
       else Ok result_date
     else replace_time result_date 9 0) ;;
  Ok (if result_date <? now2 then result_date + DAY else result_date).

(** The slot values, as [get_slot_value] returns them. *)
Record Slots : Type := mkSlots {
  relative_day : option string;
  day_name : option string;
  time_number : option string;
  time_unit : option string;
  time_period : option string;
  hour_number : option string;
  minute_number : option string;
  month_name : option string;
  ordinal : option string
}.

(** [parse_due_from_slots]; [now] is the reading of [dt_util.now()] at the
    start, [now1] and [now2] those made by [apply_time_of_day]. *)
Definition parse_due_from_slots (now now1 now2 : datetime) (sl : Slots)
  : result datetime :=
  result_date <-
    (if set_ (relative_day sl)
     then Ok (handle_relative_day now (slot_text (relative_day sl)))
     else if set_ (day_name sl)
     then Ok (handle_day_name now (slot_text (day_name sl)))
     else if set_ (time_number sl) && set_ (time_unit sl)
     then Ok (handle_relative_time now (slot_text (time_number sl))
                (slot_text (time_unit sl)))
     else if set_ (month_name sl) && set_ (ordinal sl)
     then handle_month_name_with_ordinal now (slot_text (month_name sl))
            (slot_text (ordinal sl))
     else Ok (Some UNSET_DATE)) ;;
  let result_date :=
    match result_date with
    | Some d => d
    | None => now + DAY
    end in
  if negb (is_in_relative_minutes (time_number sl) (time_unit sl))
  then apply_time_of_day now1 now2 result_date
         (time_period sl) (hour_number sl) (minute_number sl)
  else Ok result_date.

(** The units of [TIME_UNIT_TO_TIMEDELTA], split as [is_in_relative_minutes]
    splits them. *)
Definition clock_units : list string := ["minute"; "minutes"; "hour"; "hours"].

End ReminderTimeResolver.

(** ** ISO 8601 text, for running the code on concrete records

    [Iso.fromisoformat] reads the form [YYYY-MM-DDTHH:MM:SS] (the separator
    may also be a blank) and rejects everything else; [Iso.isoformat] writes
    that form.  They stand in for the library functions on the inputs of
    the concrete runs below; the general statements do not depend on them. *)
Module Iso.
Import PyStr.

Definition digit_char (n : Z) : ascii := ascii_of_nat (Z.to_nat (48 + n mod 10)).

Definition pad2 (n : Z) : string :=
  String (digit_char (n / 10)) (String (digit_char n) "").

Definition pad4 (n : Z) : string := pad2 (n / 100) ++ pad2 (n mod 100).

Definition pad6 (n : Z) : string := pad4 (n / 100) ++ pad2 (n mod 100).

Definition isoformat_date (o : Z) : string :=
  let '(y, m, d) := ord2ymd o in
  pad4 y ++ "-" ++ pad2 m ++ "-" ++ pad2 d.

Definition isoformat (d : datetime) : string :=
  isoformat_date (toordinal d) ++ "T" ++ pad2 (hour d) ++ ":"
    ++ pad2 (minute d) ++ ":" ++ pad2 (second d)
    ++ (if microsecond d =? 0 then "" else "." ++ pad6 (microsecond d)).

(** [n] digits at the head of [s], and the rest *)
Fixpoint digits (n : nat) (s : string) (acc : Z) : option (Z * string) :=
  match n, s with
  | O, _ => Some (acc, s)
  | S n', String c t =>
      if is_digit c then digits n' t (10 * acc + digit_val c) else None
  | S _, EmptyString => None
  end.

Definition expect (c : ascii) (s : string) : option string :=
  match s with
  | String c' t => if Ascii.eqb c c' then Some t else None
  | EmptyString => None
  end.

Definition separator (s : string) : option string :=
  match s with
  | String c t =>
      if Ascii.eqb c "T"%char || Ascii.eqb c " "%char then Some t else None
  | EmptyString => None
  end.

Definition fromisoformat (s : string) : option datetime :=
  match digits 4 s 0 with
  | Some (y, s) =>
  match expect "-"%char s with
  | Some s =>
  match digits 2 s 0 with
  | Some (mo, s) =>
  match expect "-"%char s with
  | Some s =>
  match digits 2 s 0 with
  | Some (d, s) =>
  match separator s with
  | Some s =>
  match digits 2 s 0 with
  | Some (h, s) =>
  match expect ":"%char s with
  | Some s =>
  match digits 2 s 0 with
  | Some (mi, s) =>
  match expect ":"%char s with
  | Some s =>
  match digits 2 s 0 with
  | Some (sec, EmptyString) =>
      if (1 <=? y) && (1 <=? mo) && (mo <=? 12) && (1 <=? d)
         && (d <=? days_in_month y mo) && (h <=? 23) && (mi <=? 59)
         && (sec <=? 59)
      then Some (mk y mo d h mi sec)
      else None
  | _ => None end
  | None => None end
  | None => None end
  | None => None end
  | None => None end
  | None => None end
  | None => None end
  | None => None end
  | None => None end
  | None => None end
  | None => None end.
End Iso.

(** ** The repository: [reminders/const.py] and [reminder_entity.py] *)

(** [datetime.fromisoformat] on a string ([None]: [ValueError]),
    [datetime.isoformat] and [date.isoformat]: library functions, kept
    abstract. *)
Class IsoFormat : Type := {
  fromisoformat : string -> option datetime;
  isoformat : datetime -> string;
  isoformat_date : Z -> string
}.

Section Repository.

Context {fmt : IsoFormat}.

(** [datetime.fromisoformat(v)] on any value *)
Definition py_fromisoformat (v : pyval) : result datetime :=
  match v with
  | PyStr s =>
      match fromisoformat s with
      | Some d => Ok d
      | None => Raise ValueError
      end
  | _ => Raise TypeError
  end.

(** [v.isoformat()] on any value *)
Definition py_isoformat (v : pyval) : result string :=
  match v with
  | PyDatetime d => Ok (isoformat d)
  | PyDate o => Ok (isoformat_date o)
  | _ => Raise AttributeError
  end.

(** [ReminderItemFactory.normalize_date(due_date, uid)], with [now] the
    reading of [datetime.now()].  A string that does not parse stays a
    string and falls to the last branch. *)
Definition normalize_date (now : datetime) (due_date : pyval) (uid : pyval)
  : M (option datetime) :=
  match due_date with
  | PyStr s =>
      match fromisoformat s with
      | Some d => ret (Some d)
      | None =>
          logger (LogBadDateFormat uid s) ;;;
          logger (LogUnknownDateType uid due_date) ;;;
          ret None
      end
  | PyDatetime d => ret (Some d)
  | PyDate o => ret (Some (combine o 9 0 0))
  | PyNone => ret (Some (now + DAY))
  end.

(** [ReminderItemFactory.build(ctx_uid)]; [uuid_hex] is
    [str(uuid4()).replace("-", "")]. *)
Definition build (now : datetime) (uuid_hex : string)
    (self : ReminderItemFactory) (ctx_uid : pyval) : M ReminderItem :=
  let uid := py_or (f_uid self) (PyStr uuid_hex) in
  due_date <~ normalize_date now (f_due self) uid ;;
  match f_list_id self with
  | PyNone => raise ValueError
  | _ =>
      let due_date :=
        match due_date with
        | None => combine (toordinal (now + DAY)) 9 0 0
        | Some d => d
        end in
      ret (mkReminderItem uid (f_list_id self) (f_summary self)
             (PyDatetime due_date) ctx_uid PyNone)
  end.

(** [_get_user_from_call(hass, call)] *)
Definition async_get_user (us : list User) (id : string) : option User :=
  find (fun u => String.eqb (u_id u) id) us.

Definition _get_user_from_call (call : ServiceCall) : M pyval :=
  w <~ get_world ;;
  let user_data :=
    match context_user_id call with
    | PyStr id => if PyStr.nonempty id then async_get_user (users w) id else None
    | _ => None
    end in
  match user_data with
  | None => logger (LogUnknownUser (context_user_id call)) ;;; ret PyNone
  | Some u => ret (PyStr (u_id u))
  end.

(** [_is_automation_driven_user(hass, call)]: the last user whose name
    equals the call's ["user"] entry. *)
Definition _is_automation_driven_user (call : ServiceCall) : M pyval :=
  w <~ get_world ;;
  let user_data :=
    match origin_event_type call with
    | Some ty =>
        if String.eqb ty "automation_triggered"
        then fold_left
               (fun acc u => if py_eqb (u_name u) (data_user call) then Some u else acc)
               (users w) None
        else None
    | None => None
    end in
  match user_data with
  | Some u => ret (PyStr (u_id u))
  | None => ret PyNone
  end.

(** [find_in_reminder_list(unique_id, ctx_uid, uid, reminders)] *)
Definition reminder_filter (unique_id : string) (uid0 : pyval) (r : ReminderItem)
  : bool :=
  py_eqb (list_id r) (PyStr unique_id) && py_eqb (uid r) uid0.

Definition find_in_reminder_list (unique_id : string) (ctx_uid uid0 : pyval)
    (rs : list ReminderItem) : M (option ReminderItem) :=
  match filter (reminder_filter unique_id uid0) rs with
  | [] => logger (LogItemNotFound uid0) ;;; ret None
  | [r] =>
      if negb (py_eqb (user_id r) ctx_uid) then raise ValueError
      else ret (Some r)
  | _ :: _ :: _ => raise ValueError
  end.

(** [load_reminders(unique_id, reminders)]: one record of the loop. *)
Definition load_one (unique_id : string) (r : rawrec)
  : result (option ReminderItem) :=
  let uid := rget r "id" in
  let due_str := rget r "due" in
  if negb (truthy uid) || negb (truthy due_str) then Raise ValueError
  else if negb (PyStr.nonempty unique_id)
          || negb (py_eqb (rget_default r "list_id" PyNone) (PyStr unique_id))
  then Ok None
  else
    let last_fired := rget_default r "last_fired" PyNone in
    last_fired <-
      (if truthy last_fired
       then (d <- py_fromisoformat last_fired ;; Ok (PyDatetime d))
       else Ok PyNone) ;;
    due <- py_fromisoformat due_str ;;
    Ok (Some (mkReminderItem uid (PyStr unique_id) (rget r "summary")
                (PyDatetime due) (rget r "user_id") last_fired)).

Fixpoint load_loop (unique_id : string) (rs : list rawrec)
    (reminders_list : list ReminderItem) : result (list ReminderItem) :=
  match rs with
  | [] => Ok reminders_list
  | r :: rest =>
      o <- load_one unique_id r ;;
      match o with
      | Some item => load_loop unique_id rest (reminders_list ++ [item])
      | None => load_loop unique_id rest reminders_list
      end
  end.

Definition load_reminders (unique_id : string) (d : store)
  : result (list ReminderItem) :=
  load_loop unique_id (Dict.values d) [].

(** [UserRemindersListEntity._api_item_list(item)] *)
Definition _api_item_list (item : ReminderItem) : result rawrec :=
  due <- py_isoformat (due item) ;;
  Ok [("id", uid item); ("summary", summary item); ("due", PyStr due)].

Fixpoint map_result {A B : Type} (f : A -> result B) (l : list A)
  : result (list B) :=
  match l with
  | [] => Ok []
  | a :: rest =>
      b <- f a ;;
      bs <- map_result f rest ;;
      Ok (b :: bs)
  end.

(** [_sync_reminders_to_items]: the loop over [reminders.values()]. *)
Fixpoint sync_loop (now : datetime) (self : Entity) (rs : list rawrec)
    (items : list ReminderItem) : M (list ReminderItem) :=
  match rs with
  | [] => ret items
  | reminder :: rest =>
      let uid := rget reminder "id" in
      if negb (truthy uid) then sync_loop now self rest items
      else if negb (py_eqb (rget reminder "user_id") (PyStr (_user_id self)))
      then sync_loop now self rest items
      else
        due_datetime <~ normalize_date now (rget reminder "due") uid ;;
        match due_datetime with
        | None => sync_loop now self rest items
        | Some d =>
            if negb (PyStr.nonempty (_attr_unique_id self))
            then raise AssertionError
            else
              let item :=
                mkReminderItem uid (PyStr (_attr_unique_id self))
                  (rget_default reminder "summary" (PyStr ""))
                  (PyDatetime d) (rget reminder "user_id")
                  (rget reminder "last_fired") in
              sync_loop now self rest (items ++ [item])
        end
  end.

Definition _sync_reminders_to_items (now : datetime) (self : Entity) : M unit :=
  w <~ get_world ;;
  items <~ sync_loop now self (Dict.values (reminders w)) [] ;;
  set_attr_reminder_items items ;;;
  api <~ lift (map_result _api_item_list items) ;;
  set_attr_reminder_list api ;;;
  logger (LogLoaded (List.length items) (_user_name self)).

Definition _find_in_reminder_list (self : Entity) (ctx_uid item_uid : pyval)
    (rs : list ReminderItem) : M (option ReminderItem) :=
  if negb (PyStr.nonempty (_attr_unique_id self)) then raise AssertionError
  else find_in_reminder_list (_attr_unique_id self) ctx_uid item_uid rs.

Definition _load_reminders (self : Entity) (d : store)
  : M (list ReminderItem) :=
  lift (load_reminders (_attr_unique_id self) d).

(** [async_create_reminder_item(call, item)].  The [pdb.set_trace()]
    breakpoint is passed over. *)
Definition async_create_reminder_item (now : datetime) (uuid_hex : string)
    (self : Entity) (call : ServiceCall) (item : ReminderItemFactory) : M unit :=
  from_call <~ _get_user_from_call call ;;
  ctx_uid <~ (if truthy from_call then ret from_call
              else _is_automation_driven_user call) ;;
  if negb (py_eqb ctx_uid (PyStr (_user_id self))) then raise Unauthorized
  else
    let item :=
      mkReminderItemFactory (f_uid item) (PyStr (_attr_unique_id self))
        (f_summary item) (f_due item) in
    reminder <~ build now uuid_hex item ctx_uid ;;
    w <~ get_world ;;
    due_iso <~ lift (py_isoformat (due reminder)) ;;
    set_reminders
      (Dict.set py_eqb (uid reminder)
         [("id", uid reminder);
          ("list_id", PyStr (_attr_unique_id self));
          ("summary", summary reminder);
          ("due", PyStr due_iso);
          ("user_id", ctx_uid);
          ("last_fired", PyNone)]
         (reminders w)) ;;;
    _sync_reminders_to_items now self ;;;
    async_write_ha_state ;;;
    w <~ get_world ;;
    async_save (reminders w).

(** [async_update_reminder_item(call, item)].  The stored record is looked
    up once: every use of [reminders_dict[item.uid]] in the new record
    raises the same [KeyError], the ["user_id"] entry always makes one,
    and it comes before [item.last_fired] is looked at. *)
Definition async_update_reminder_item (now : datetime)
    (self : Entity) (call : ServiceCall) (item : ReminderItem) : M unit :=
  ctx_uid <~ _get_user_from_call call ;;
  if negb (py_eqb ctx_uid (PyStr (_user_id self))) then raise Unauthorized
  else
    w <~ get_world ;;
    rs <~ _load_reminders self (reminders w) ;;
    reminder <~ _find_in_reminder_list self ctx_uid (uid item) rs ;;
    match reminder with
    | None => ret tt
    | Some _ =>
        due_new <~ normalize_date now (due item) (uid item) ;;
        w <~ get_world ;;
        match Dict.get py_eqb (uid item) (reminders w) with
        | None => raise KeyError
        | Some old =>
            let new_summary :=
              py_or (summary item) (rget_default old "summary" (PyStr "")) in
            let new_due :=
              match due_new with
              | Some d => PyStr (isoformat d)
              | None => rget old "due"
              end in
            new_last_fired <~
              (if truthy (last_fired item)
               then (s <~ lift (py_isoformat (last_fired item)) ;; ret (PyStr s))
               else ret PyNone) ;;
            set_reminders
              (Dict.set py_eqb (uid item)
                 [("id", uid item);
                  ("list_id", PyStr (_attr_unique_id self));
                  ("summary", new_summary);
                  ("due", new_due);
                  ("user_id", rget old "user_id");
                  ("last_fired", new_last_fired)]
                 (reminders w)) ;;;
            _sync_reminders_to_items now self ;;;
            async_write_ha_state ;;;
            w <~ get_world ;;
            async_save (reminders w)
        end
    end.

(** [async_remove_reminder_items(call, uids)]: the loop over [uids] works
    on the list loaded before the loop and deletes from the live dict. *)
Definition remove_one (self : Entity) (ctx_uid : pyval)
    (rs : list ReminderItem) (uid0 : string) : M unit :=
  reminder <~ _find_in_reminder_list self ctx_uid (PyStr uid0) rs ;;
  match reminder with
  | Some _ =>
      w <~ get_world ;;
      match Dict.del py_eqb (PyStr uid0) (reminders w) with
      | Some d => set_reminders d
      | None => raise KeyError
      end
  | None => ret tt
  end.

Fixpoint remove_loop (self : Entity) (ctx_uid : pyval)
    (rs : list ReminderItem) (uids : list string) : M unit :=
  match uids with
  | [] => ret tt
  | uid0 :: rest =>
      remove_one self ctx_uid rs uid0 ;;;
      remove_loop self ctx_uid rs rest
  end.

Definition async_remove_reminder_items (now : datetime)
    (self : Entity) (call : ServiceCall) (uids : list string) : M unit :=
  ctx_uid <~ _get_user_from_call call ;;
  if negb (py_eqb ctx_uid (PyStr (_user_id self))) then raise Unauthorized
  else
    w <~ get_world ;;
    rs <~ _load_reminders self (reminders w) ;;
    remove_loop self ctx_uid rs uids ;;;
    _sync_reminders_to_items now self ;;;
    async_write_ha_state ;;;
    w <~ get_world ;;
    async_save (reminders w).

(** [async_get_reminder_items(call, uids)] *)
Fixpoint get_loop (self : Entity) (ctx_uid : pyval)
    (rs : list ReminderItem) (uids : list string)
    (current_reminders : list ReminderItem) : M (list ReminderItem) :=
  match uids with
  | [] => ret current_reminders
  | uid0 :: rest =>
      reminder <~ _find_in_reminder_list self ctx_uid (PyStr uid0) rs ;;
      match reminder with
      | Some r => get_loop self ctx_uid rs rest (current_reminders ++ [r])
      | None => get_loop self ctx_uid rs rest current_reminders
      end
  end.

Definition async_get_reminder_items (self : Entity) (call : ServiceCall)
    (uids : option (list string)) : M (list ReminderItem) :=
  ctx_uid <~ _get_user_from_call call ;;
  w <~ get_world ;;
  rs <~ _load_reminders self (reminders w) ;;
  match uids with
  | Some (uid0 :: rest) => get_loop self ctx_uid rs (uid0 :: rest) []
  | _ => ret (filter (fun r => py_eqb (user_id r) ctx_uid) rs)
  end.

(** ** The scheduler: [user_reminders/scheduler.py] *)






(** ** The intent handlers' searches: [user_reminders/intents.py] *)

(** [ReminderIntentHandlerBase.get_reminders(hass, unique_id, user_id)] *)
Definition get_reminders (unique_id : string) (user : pyval)
  : M (list ReminderItem) :=
  w <~ get_world ;;
  rs <~ lift (load_reminders unique_id (reminders w)) ;;
  ret (filter
         (fun r => py_eqb (list_id r) (PyStr unique_id) && py_eqb (user_id r) user)
         rs).

(** The loop of [matching_reminder]: the first reminder whose summary
    contains the text, letter case aside.  A summary that is not a string
    has no [lower]. *)
Fixpoint matching_loop (reminder_text : string) (rs : list ReminderItem)
  : result (option ReminderItem) :=
  match rs with
  | [] => Ok None
  | reminder :: rest =>
      match summary reminder with
      | PyStr s =>
          if PyStr.contains (PyStr.lower reminder_text) (PyStr.lower s)
          then Ok (Some reminder)
          else matching_loop reminder_text rest
      | _ => Raise AttributeError
      end
  end.

(** [ReminderIntentHandlerBase.matching_reminder(hass, reminder_text,
    unique_id, user_id)] *)
Definition matching_reminder (reminder_text : string) (unique_id : string)
    (user : pyval) : M (option ReminderItem) :=
  rs <~ get_reminders unique_id user ;;
  lift (matching_loop reminder_text rs).

(** ** What the specification says, in its own words *)






(** ** Notions used in the statements about the repository *)

(** [w'] differs from [w] at most in the log and the entity's view. *)
Definition same_store (w w' : World) : Prop :=
  users w' = users w /\ reminders w' = reminders w /\ saves w' = saves w /\
  bus w' = bus w /\ calls w' = calls w /\ state_writes w' = state_writes w.

(** The value [normalize_date] returns, without its log lines. *)
Definition normalized (now : datetime) (v : pyval) : option datetime :=
  match v with
  | PyStr s => fromisoformat s
  | PyDatetime d => Some d
  | PyDate o => Some (combine o 9 0 0)
  | PyNone => Some (now + DAY)
  end.

(** The items one stored record contributes to the view of [self]. *)
Definition view_of (now : datetime) (self : Entity) (r : rawrec)
  : list ReminderItem :=
  if truthy (rget r "id")
     && py_eqb (rget r "user_id") (PyStr (_user_id self))
  then
    match normalized now (rget r "due") with
    | Some d =>
        [mkReminderItem (rget r "id") (PyStr (_attr_unique_id self))
           (rget_default r "summary" (PyStr "")) (PyDatetime d)
           (rget r "user_id") (rget r "last_fired")]
    | None => []
    end
  else [].

(** Is [u] the uid of some loaded reminder of the list? *)
Definition found_in (unique_id : string) (rs : list ReminderItem) (u : string)
  : bool :=
  match filter (reminder_filter unique_id (PyStr u)) rs with
  | [] => false
  | _ :: _ => true
  end.



(** The collection without the keys in [uids] that were found. *)
Definition without (unique_id : string) (rs : list ReminderItem)
    (uids : list string) (d : store) : store :=
  filter
    (fun kv =>
       negb (existsb (fun u => found_in unique_id rs u && py_eqb (fst kv) (PyStr u))
               uids))
    d.

(** A stored record belongs to the list [unique_id], as [load_reminders]
    tests it. *)
Definition in_list (unique_id : string) (r : rawrec) : bool :=
  PyStr.nonempty unique_id
  && py_eqb (rget_default r "list_id" PyNone) (PyStr unique_id).

(** A well-typed loaded item of the list [unique_id]. *)
Definition loaded_item (unique_id : string) (it : ReminderItem) : Prop :=
  list_id it = PyStr unique_id /\
  truthy (uid it) = true /\
  (exists d, due it = PyDatetime d) /\
  (last_fired it = PyNone \/ exists t, last_fired it = PyDatetime t).

(** A uid a get call gets past: it names no loaded reminder of the list,
    or exactly one, owned by the caller. *)
Definition owned_or_missing (unique_id : string) (ctx_uid : pyval)
    (rs : list ReminderItem) (u : string) : Prop :=
  match filter (reminder_filter unique_id (PyStr u)) rs with
  | [] => True
  | [r] => user_id r = ctx_uid
  | _ :: _ :: _ => False
  end.



(** The reminders of [rs] that belong to the list and the user, as
    [get_reminders] selects them. *)
Definition reminders_of (unique_id : string) (user : pyval)
    (rs : list ReminderItem) : list ReminderItem :=
  filter
    (fun r => py_eqb (list_id r) (PyStr unique_id) && py_eqb (user_id r) user)
    rs.

(** The summary of [r] is a string that does not contain the text, letter
    case aside. *)
Definition no_match (reminder_text : string) (r : ReminderItem) : Prop :=
  exists s, summary r = PyStr s /\
            PyStr.contains (PyStr.lower reminder_text) (PyStr.lower s) = false.



End Repository.

(** The text format of [Iso], for the concrete runs. *)
Definition iso_text : IsoFormat :=
  {| fromisoformat := Iso.fromisoformat;
     isoformat := Iso.isoformat;
     isoformat_date := Iso.isoformat_date |}.

(** ** Concrete collections, calls and slots *)

Module Run.

Definition alice : Entity := mkEntity "u-alice" (PyStr "Alice") "reminders_alice".

Definition users0 : list User :=
  [mkUser "u-alice" (PyStr "Alice"); mkUser "u-bob" (PyStr "Bob")].

Definition call_by (user : string) : ServiceCall :=
  mkServiceCall (PyStr user) None PyNone.

(** Friday 2024-05-10, 15:30:00 *)
Definition now0 : datetime := mk 2024 5 10 15 30 0.

Definition world_of (d : store) : World :=
  mkWorld users0 d [] [] [] [] 0 [] [].

Definition record (id list_id text due0 user lf : pyval) : rawrec :=
  [("id", id); ("list_id", list_id); ("summary", text); ("due", due0);
   ("user_id", user); ("last_fired", lf)].

Definition milk (due0 lf : pyval) : rawrec :=
  record (PyStr "x") (PyStr "reminders_alice") (PyStr "buy milk") due0
    (PyStr "u-alice") lf.

Definition bread (due0 lf : pyval) : rawrec :=
  record (PyStr "y") (PyStr "reminders_alice") (PyStr "buy bread") due0
    (PyStr "u-alice") lf.

(** a record in alice's list that belongs to bob *)
Definition stray : rawrec :=
  record (PyStr "z") (PyStr "reminders_alice") (PyStr "feed cat")
    (PyStr "2024-05-10T15:29:59") (PyStr "u-bob") PyNone.

Import ReminderTimeResolver.


Definition march_third : Slots :=
  mkSlots None None None None None None None (Some "March") (Some "third").

Definition in_some_minutes : Slots :=
  mkSlots None None (Some "a few") (Some "minutes") (Some "evening") None None
    None None.

Definition no_slots : Slots :=
  mkSlots None None None None None None None None None.


Definition due_past : pyval := PyStr "2024-05-10T15:29:59".



(** A collection whose first record has a due string that does not parse
    and whose second record is due and was never fired. *)
Definition bad_then_due : store :=
  [(PyStr "x", milk (PyStr "not-a-date") PyNone);
   (PyStr "y", bread due_past PyNone)].


Definition two_reminders : store :=
  [(PyStr "x", milk due_past (PyStr "2024-05-09T16:30:00"));
   (PyStr "y", bread due_past PyNone)].

Definition new_text : ReminderItem :=
  mkReminderItem (PyStr "x") (PyStr "") (PyStr "buy oat milk")
    (PyDatetime (mk 2024 5 12 8 0 0)) PyNone PyNone.

Definition no_due : ReminderItemFactory :=
  mkReminderItemFactory PyNone PyNone (PyStr "buy milk") PyNone.

Definition bread_item : ReminderItem :=
  mkReminderItem (PyStr "y") (PyStr "reminders_alice") (PyStr "buy bread")
    (PyDatetime (now0 - SECOND)) (PyStr "u-alice") PyNone.

Definition with_stray : store :=
  [(PyStr "x", milk due_past PyNone); (PyStr "z", stray)].

Definition two_items : list ReminderItem :=
  [mkReminderItem (PyStr "x") (PyStr "reminders_alice") (PyStr "buy milk")
     (PyDatetime (now0 - SECOND)) (PyStr "u-alice")
     (PyDatetime (now0 - 23 * HOUR));
   bread_item].

(** an update that names no stored reminder *)
Definition unknown_text : ReminderItem :=
  mkReminderItem (PyStr "q") (PyStr "") (PyStr "buy oat milk")
    (PyDatetime (mk 2024 5 12 8 0 0)) PyNone PyNone.


Definition call_mom : ReminderItemFactory :=
  mkReminderItemFactory PyNone PyNone (PyStr "call mom")
    (PyDatetime (mk 2024 5 12 8 0 0)).

Definition on_a_date : ReminderItemFactory :=
  mkReminderItemFactory PyNone (PyStr "reminders_alice") (PyStr "call mom")
    (PyDate (toordinal (mk 2024 5 12 0 0 0))).

Definition milk_item : ReminderItem :=
  mkReminderItem (PyStr "x") (PyStr "reminders_alice") (PyStr "buy milk")
    (PyDatetime (now0 - SECOND)) (PyStr "u-alice")
    (PyDatetime (now0 - 23 * HOUR)).

Definition stray_item : ReminderItem :=
  mkReminderItem (PyStr "z") (PyStr "reminders_alice") (PyStr "feed cat")
    (PyDatetime (now0 - SECOND)) (PyStr "u-bob") PyNone.


Definition stray_items : list ReminderItem :=
  [mkReminderItem (PyStr "x") (PyStr "reminders_alice") (PyStr "buy milk")
     (PyDatetime (now0 - SECOND)) (PyStr "u-alice") PyNone;
   mkReminderItem (PyStr "z") (PyStr "reminders_alice") (PyStr "feed cat")
     (PyDatetime (now0 - SECOND)) (PyStr "u-bob") PyNone].

End Run.

(** ** The repository and the scheduler: properties *)

Section RepositoryProperties.

Context {fmt : IsoFormat}.

Ltac run_m :=
  unfold bindM, ret, raise, lift, get_world, logger, async_fire, async_call,
    set_reminders, async_save, async_write_ha_state,
    set_attr_reminder_items, set_attr_reminder_list in *;
  cbn [fst snd bus reminders saves calls log users state_writes
       attr_reminder_items attr_reminder_list] in *.







Lemma py_eqb_eq (a b : pyval) : py_eqb a b = true <-> a = b.
Proof.
  destruct a, b; cbn [py_eqb]; split; intros H;
    try discriminate; try reflexivity.
  - apply String.eqb_eq in H. congruence.
  - injection H as ->. apply String.eqb_refl.
  - apply Z.eqb_eq in H. congruence.
  - injection H as ->. apply Z.eqb_refl.
  - apply Z.eqb_eq in H. congruence.
  - injection H as ->. apply Z.eqb_refl.
Qed.

Lemma py_eqb_neq (a b : pyval) : py_eqb a b = false <-> a <> b.
Proof.
  split.
  - intros H E. apply py_eqb_eq in E. congruence.
  - intros H. destruct (py_eqb a b) eqn:E; [|reflexivity].
    apply py_eqb_eq in E. contradiction.
Qed.

(** Resolving the acting user writes at most a log line. *)
Lemma _get_user_from_call_frame (call : ServiceCall) (w : World) :
  let w' := snd (_get_user_from_call call w) in
  exists ctx_uid, fst (_get_user_from_call call w) = Ok ctx_uid /\
  users w' = users w /\ reminders w' = reminders w /\ saves w' = saves w /\
  bus w' = bus w /\ calls w' = calls w /\ state_writes w' = state_writes w /\
  attr_reminder_items w' = attr_reminder_items w /\
  attr_reminder_list w' = attr_reminder_list w.
Proof.
  unfold _get_user_from_call. run_m.
  destruct (match context_user_id call with
            | PyStr id => if PyStr.nonempty id then async_get_user (users w) id else None
            | _ => None
            end) as [u|]; cbn; eexists; repeat split; reflexivity.
Qed.

(** C3. An update whose resolved acting user is not the list's owner
    raises [Unauthorized]; the reminder collection, the list of saves and
    the entity's view are what they were before the call. *)
Theorem C3_update_rejects_other_user
    (now : datetime) (self : Entity) (call : ServiceCall) (item : ReminderItem)
    (w : World) (ctx_uid : pyval) :
  fst (_get_user_from_call call w) = Ok ctx_uid ->
  ctx_uid <> PyStr (_user_id self) ->
  let out := async_update_reminder_item now self call item w in
  fst out = Raise Unauthorized /\
  reminders (snd out) = reminders w /\
  saves (snd out) = saves w /\
  state_writes (snd out) = state_writes w /\
  attr_reminder_items (snd out) = attr_reminder_items w /\
  attr_reminder_list (snd out) = attr_reminder_list w.
Proof.
  intros Hctx Hne out.
  assert (Hout : out = (Raise Unauthorized, snd (_get_user_from_call call w))).
  { subst out. unfold async_update_reminder_item, bindM.
    destruct (_get_user_from_call call w) as [[c|e] w1]; cbn [fst snd] in *;
      [|discriminate].
    injection Hctx as ->. apply py_eqb_neq in Hne. rewrite Hne. reflexivity. }
  rewrite Hout. cbn [fst snd].
  destruct (_get_user_from_call_frame call w)
    as [c [_ [_ [Hr [Hs [_ [_ [Hw [Hi Hl]]]]]]]]].
  repeat split; assumption.
Qed.

(** *** Dictionary facts *)

Lemma py_eqb_refl (a : pyval) : py_eqb a a = true.
Proof. apply py_eqb_eq. reflexivity. Qed.

Lemma dict_get_set_eq {V : Type} (k : pyval) (v : V) (d : Dict.t pyval V) :
  Dict.get py_eqb k (Dict.set py_eqb k v d) = Some v.
Proof.
  induction d as [|[k' v'] d IH]; cbn [Dict.set Dict.get].
  - rewrite py_eqb_refl. reflexivity.
  - destruct (py_eqb k k') eqn:E; cbn [Dict.get]; rewrite E.
    + reflexivity.
    + exact IH.
Qed.

Lemma dict_get_set_ne {V : Type} (k k0 : pyval) (v : V) (d : Dict.t pyval V) :
  k0 <> k ->
  Dict.get py_eqb k0 (Dict.set py_eqb k v d) = Dict.get py_eqb k0 d.
Proof.
  intros Hne. induction d as [|[k' v'] d IH]; cbn [Dict.set Dict.get].
  - apply py_eqb_neq in Hne. rewrite Hne. reflexivity.
  - destruct (py_eqb k k') eqn:E; cbn [Dict.get].
    + apply py_eqb_eq in E. subst k'.
      apply py_eqb_neq in Hne. rewrite Hne. reflexivity.
    + destruct (py_eqb k0 k'); [reflexivity|exact IH].
Qed.

Lemma dict_set_fresh_length {V : Type} (k : pyval) (v : V) (d : Dict.t pyval V) :
  Dict.get py_eqb k d = None ->
  List.length (Dict.set py_eqb k v d) = S (List.length d).
Proof.
  induction d as [|[k' v'] d IH]; cbn [Dict.set Dict.get List.length].
  - reflexivity.
  - destruct (py_eqb k k'); [discriminate|].
    intros H. cbn [List.length]. rewrite (IH H). reflexivity.
Qed.

(** *** What a step leaves alone *)

Lemma same_store_refl (w : World) : same_store w w.
Proof. repeat split. Qed.

Lemma same_store_trans (w1 w2 w3 : World) :
  same_store w1 w2 -> same_store w2 w3 -> same_store w1 w3.
Proof.
  unfold same_store. intros H1 H2.
  destruct H1 as [? [? [? [? [? ?]]]]], H2 as [? [? [? [? [? ?]]]]].
  repeat split; congruence.
Qed.

Lemma normalize_date_same_store (now : datetime) (v uid0 : pyval) (w : World) :
  same_store w (snd (normalize_date now v uid0 w)).
Proof.
  unfold normalize_date.
  destruct v as [|s|d|o]; try apply same_store_refl.
  destruct (fromisoformat s); run_m; repeat split.
Qed.

Lemma normalize_date_ok (now : datetime) (v uid0 : pyval) (w : World) :
  exists o, fst (normalize_date now v uid0 w) = Ok o.
Proof.
  unfold normalize_date.
  destruct v as [|s|d|o]; try (eexists; reflexivity).
  destruct (fromisoformat s); run_m; eexists; reflexivity.
Qed.

Lemma sync_loop_same_store (now : datetime) (self : Entity) (rs : list rawrec) :
  forall (items : list ReminderItem) (w : World),
    same_store w (snd (sync_loop now self rs items w)).
Proof.
  induction rs as [|r rs IH]; intros items w; cbn [sync_loop].
  - apply same_store_refl.
  - destruct (negb (truthy (rget r "id"))); [apply IH|].
    destruct (negb (py_eqb (rget r "user_id") (PyStr (_user_id self))));
      [apply IH|].
    unfold bindM.
    pose proof (normalize_date_same_store now (rget r "due") (rget r "id") w) as Hn.
    destruct (normalize_date now (rget r "due") (rget r "id") w) as [[o|e] w1];
      cbn [snd] in *; [|exact Hn].
    destruct o as [d|].
    + destruct (negb (PyStr.nonempty (_attr_unique_id self))).
      * exact Hn.
      * eapply same_store_trans; [exact Hn|apply IH].
    + eapply same_store_trans; [exact Hn|apply IH].
Qed.

Lemma _sync_reminders_to_items_same_store (now : datetime) (self : Entity)
    (w : World) :
  same_store w (snd (_sync_reminders_to_items now self w)).
Proof.
  unfold _sync_reminders_to_items. run_m.
  pose proof (sync_loop_same_store now self (Dict.values (reminders w)) [] w) as H.
  destruct (sync_loop now self (Dict.values (reminders w)) [] w) as [[items|e] w1];
    cbn [snd] in *; [|exact H].
  destruct (map_result _api_item_list items) as [api|e]; cbn [snd];
    destruct H as [? [? [? [? [? ?]]]]]; repeat split; assumption.
Qed.

Lemma _is_automation_driven_user_pure (call : ServiceCall) (w : World) :
  exists v, _is_automation_driven_user call w = (Ok v, w).
Proof.
  unfold _is_automation_driven_user. run_m.
  destruct (match origin_event_type call with
            | Some ty =>
                if String.eqb ty "automation_triggered"
                then fold_left
                       (fun acc u =>
                          if py_eqb (u_name u) (data_user call) then Some u else acc)
                       (users w) None
                else None
            | None => None
            end); eexists; reflexivity.
Qed.

(** C10. A create that succeeds saves once, and the mapping it saves is
    the previous collection with one entry set: the key is the new item's
    uid (the supplied uid, else the generated one), the record carries
    that uid, and the entry of every other key is what it was.  When the
    uid was not a key before, the collection has one entry more. *)
Theorem C10_create_sets_one_entry
    (now : datetime) (uuid_hex : string) (self : Entity) (call : ServiceCall)
    (item : ReminderItemFactory) (w : World) :
  let out := async_create_reminder_item now uuid_hex self call item w in
  fst out = Ok tt ->
  exists (saved : store) (rec : rawrec),
    let new_uid := py_or (f_uid item) (PyStr uuid_hex) in
    saves (snd out) = (saves w ++ [saved])%list /\
    reminders (snd out) = saved /\
    saved = Dict.set py_eqb new_uid rec (reminders w) /\
    rget rec "id" = new_uid /\
    Dict.get py_eqb new_uid saved = Some rec /\
    (forall k : pyval,
       k <> new_uid ->
       Dict.get py_eqb k saved = Dict.get py_eqb k (reminders w)) /\
    (Dict.get py_eqb new_uid (reminders w) = None ->
     List.length saved = S (List.length (reminders w))).
Proof.
  intros out Hok.
  destruct out as [r w'] eqn:E. subst out. cbn [fst snd] in *. subst r.
  unfold async_create_reminder_item in E. unfold bindM at 1 in E.
  destruct (_get_user_from_call_frame call w)
    as [c0 [Hc [_ [Hr1 [Hs1 _]]]]].
  destruct (_get_user_from_call call w) as [[from_call|e] w1];
    cbn [fst snd] in *; [|discriminate]. clear Hc c0.
  unfold bindM at 1 in E.
  assert (Hctx : exists ctx,
             (if truthy from_call then ret from_call
              else _is_automation_driven_user call) w1 = (Ok ctx, w1)).
  { destruct (truthy from_call).
    - eexists. reflexivity.
    - apply _is_automation_driven_user_pure. }
  destruct Hctx as [ctx Hctx]. rewrite Hctx in E.
  destruct (negb (py_eqb ctx (PyStr (_user_id self)))).
  { unfold raise in E. discriminate. }
  unfold bindM at 1 in E. unfold build in E. unfold bindM at 1 in E.
  cbn [f_uid f_list_id f_due f_summary] in E.
  pose proof (normalize_date_same_store now (f_due item)
                (py_or (f_uid item) (PyStr uuid_hex)) w1) as Hn.
  destruct (normalize_date now (f_due item)
              (py_or (f_uid item) (PyStr uuid_hex)) w1) as [[o|e] w2];
    cbn [snd] in Hn; [|discriminate].
  destruct Hn as [_ [Hr2 [Hs2 _]]].
  unfold ret at 1 in E. run_m. cbn [py_isoformat due uid summary] in E.
  match type of E with
  | context [_sync_reminders_to_items now self ?W] =>
      pose proof (_sync_reminders_to_items_same_store now self W) as Hsync;
      destruct (_sync_reminders_to_items now self W) as [[[]|e] w3]
  end; cbn [fst snd reminders saves] in *; [|discriminate].
  destruct Hsync as [_ [Hr3 [Hs3 _]]].
  injection E as <-. cbn [reminders saves].
  eexists. eexists.
  split; [rewrite Hs3, Hs2, Hs1; reflexivity|].
  split; [reflexivity|].
  split; [rewrite Hr3, Hr2, Hr1; reflexivity|].
  split; [reflexivity|].
  rewrite Hr3, Hr2, Hr1.
  split; [apply dict_get_set_eq|].
  split.
  - intros k Hk. apply dict_get_set_ne. exact Hk.
  - apply dict_set_fresh_length.
Qed.

(** *** The entity's view *)

Lemma normalize_date_value (now : datetime) (v uid0 : pyval) (w : World) :
  fst (normalize_date now v uid0 w) = Ok (normalized now v).
Proof.
  unfold normalize_date, normalized.
  destruct v as [|s|d|o]; try reflexivity.
  destruct (fromisoformat s); reflexivity.
Qed.

Lemma sync_loop_items (now : datetime) (self : Entity) (rs : list rawrec) :
  PyStr.nonempty (_attr_unique_id self) = true ->
  forall (items : list ReminderItem) (w : World),
    fst (sync_loop now self rs items w)
    = Ok (items ++ flat_map (view_of now self) rs)%list.
Proof.
  intros Hid. induction rs as [|r rs IH]; intros items w;
    cbn [sync_loop flat_map].
  - rewrite app_nil_r. reflexivity.
  - unfold view_of at 1.
    destruct (truthy (rget r "id")); cbn [negb andb]; [|apply IH].
    destruct (py_eqb (rget r "user_id") (PyStr (_user_id self)));
      cbn [negb]; [|apply IH].
    unfold bindM.
    pose proof (normalize_date_value now (rget r "due") (rget r "id") w) as Hv.
    destruct (normalize_date now (rget r "due") (rget r "id") w) as [[o|e] w1];
      cbn [fst] in Hv; [|discriminate].
    injection Hv as ->.
    destruct (normalized now (rget r "due")) as [d|].
    + rewrite Hid. cbn [negb]. rewrite IH, <- app_assoc. reflexivity.
    + apply IH.
Qed.

Lemma view_of_due (now : datetime) (self : Entity) (r : rawrec)
    (it : ReminderItem) :
  In it (view_of now self r) -> exists d, due it = PyDatetime d.
Proof.
  unfold view_of.
  destruct (truthy (rget r "id") && _); [|intros []].
  destruct (normalized now (rget r "due")) as [d|]; [|intros []].
  intros [<-|[]]. exists d. reflexivity.
Qed.

Lemma map_result_api_ok (items : list ReminderItem) :
  (forall it, In it items -> exists d, due it = PyDatetime d) ->
  exists api, map_result _api_item_list items = Ok api.
Proof.
  induction items as [|it items IH]; intros H; cbn [map_result].
  - eexists. reflexivity.
  - destruct (H it (or_introl eq_refl)) as [d Hd].
    destruct IH as [api Hapi].
    { intros it' Hin. apply H. right. exact Hin. }
    unfold _api_item_list at 1. rewrite Hd. cbn [py_isoformat bind].
    rewrite Hapi. cbn [bind]. eexists. reflexivity.
Qed.

Lemma _sync_reminders_to_items_view (now : datetime) (self : Entity) (w : World) :
  PyStr.nonempty (_attr_unique_id self) = true ->
  let out := _sync_reminders_to_items now self w in
  fst out = Ok tt /\
  attr_reminder_items (snd out)
  = flat_map (view_of now self) (Dict.values (reminders w)).
Proof.
  intros Hid out. subst out. unfold _sync_reminders_to_items. run_m.
  pose proof (sync_loop_items now self (Dict.values (reminders w)) Hid [] w) as Hi.
  destruct (sync_loop now self (Dict.values (reminders w)) [] w)
    as [[items|e] w1]; cbn [fst app] in Hi; [|discriminate].
  injection Hi as ->.
  destruct (map_result_api_ok
              (flat_map (view_of now self) (Dict.values (reminders w))))
    as [api Hapi].
  { intros it Hin. apply in_flat_map in Hin. destruct Hin as [r [_ Hin]].
    eapply view_of_due. exact Hin. }
  rewrite Hapi. cbn. split; reflexivity.
Qed.

Lemma normalize_date_log_mono (now : datetime) (v uid0 : pyval) (w : World)
    (l : logline) :
  In l (log w) -> In l (log (snd (normalize_date now v uid0 w))).
Proof.
  intros H. unfold normalize_date.
  destruct v as [|s|d|o]; try exact H.
  destruct (fromisoformat s); run_m; [exact H|].
  apply in_or_app. left. apply in_or_app. left. exact H.
Qed.

Lemma sync_loop_log_mono (now : datetime) (self : Entity) (l : logline)
    (rs : list rawrec) :
  forall (items : list ReminderItem) (w : World),
    In l (log w) -> In l (log (snd (sync_loop now self rs items w))).
Proof.
  induction rs as [|r rs IH]; intros items w H; cbn [sync_loop].
  - exact H.
  - destruct (negb (truthy (rget r "id"))); [apply IH; exact H|].
    destruct (negb (py_eqb (rget r "user_id") (PyStr (_user_id self))));
      [apply IH; exact H|].
    unfold bindM.
    pose proof (normalize_date_log_mono now (rget r "due") (rget r "id") w l H)
      as Hn.
    destruct (normalize_date now (rget r "due") (rget r "id") w) as [[o|e] w1];
      cbn [snd] in *; [|exact Hn].
    destruct o as [d|]; [|apply IH; exact Hn].
    destruct (negb (PyStr.nonempty (_attr_unique_id self)));
      [exact Hn|apply IH; exact Hn].
Qed.

Lemma sync_loop_logs_bad (now : datetime) (self : Entity) (r : rawrec)
    (s : string) (pre post : list rawrec) :
  PyStr.nonempty (_attr_unique_id self) = true ->
  truthy (rget r "id") = true ->
  rget r "user_id" = PyStr (_user_id self) ->
  rget r "due" = PyStr s -> fromisoformat s = None ->
  forall (items : list ReminderItem) (w : World),
    In (LogBadDateFormat (rget r "id") s)
       (log (snd (sync_loop now self (pre ++ r :: post) items w))).
Proof.
  intros Hid Ht Hu Hd Hp.
  induction pre as [|a pre IH]; intros items w; cbn [app sync_loop].
  - rewrite Ht, Hu, py_eqb_refl, Hd. cbn [negb].
    unfold normalize_date. rewrite Hp. run_m.
    apply sync_loop_log_mono. cbn [log].
    apply in_or_app. left. apply in_or_app. right. left. reflexivity.
  - destruct (negb (truthy (rget a "id"))); [apply IH|].
    destruct (negb (py_eqb (rget a "user_id") (PyStr (_user_id self))));
      [apply IH|].
    unfold bindM.
    destruct (normalize_date_ok now (rget a "due") (rget a "id") w) as [o Ho].
    destruct (normalize_date now (rget a "due") (rget a "id") w) as [[o'|e] w1];
      cbn [fst] in Ho; [|discriminate].
    destruct o' as [d|]; [|apply IH].
    rewrite Hid. cbn [negb]. apply IH.
Qed.

(** C6, as the code has it: the entity's view.  When the view of a list
    entity is loaded from the collection, a record of the entity's user
    whose stored [due] is a string that does not parse is logged and left
    out: the load completes, the view is the one the collection without
    that record gives, and every record of the user with a uid and a
    [due] that parses is in it. *)
Theorem C6_view_drops_malformed_due
    (now : datetime) (self : Entity) (w w0 : World)
    (pre post : store) (k : pyval) (r : rawrec) (s : string) :
  PyStr.nonempty (_attr_unique_id self) = true ->
  reminders w = (pre ++ (k, r) :: post)%list ->
  reminders w0 = (pre ++ post)%list ->
  truthy (rget r "id") = true ->
  rget r "user_id" = PyStr (_user_id self) ->
  rget r "due" = PyStr s ->
  fromisoformat s = None ->
  let out := _sync_reminders_to_items now self w in
  fst out = Ok tt /\
  In (LogBadDateFormat (rget r "id") s) (log (snd out)) /\
  attr_reminder_items (snd out)
  = attr_reminder_items (snd (_sync_reminders_to_items now self w0)) /\
  (forall (k' : pyval) (r' : rawrec) (s' : string) (d : datetime),
     In (k', r') (reminders w) ->
     truthy (rget r' "id") = true ->
     rget r' "user_id" = PyStr (_user_id self) ->
     rget r' "due" = PyStr s' -> fromisoformat s' = Some d ->
     In (mkReminderItem (rget r' "id") (PyStr (_attr_unique_id self))
           (rget_default r' "summary" (PyStr "")) (PyDatetime d)
           (rget r' "user_id") (rget r' "last_fired"))
        (attr_reminder_items (snd out))).
Proof.
  intros Hid Hw Hw0 Ht Hu Hd Hp out. subst out.
  destruct (_sync_reminders_to_items_view now self w Hid) as [Hok Hitems].
  destruct (_sync_reminders_to_items_view now self w0 Hid) as [_ Hitems0].
  split; [exact Hok|]. split; [|split].
  - unfold _sync_reminders_to_items. run_m.
    pose proof (sync_loop_logs_bad now self r s (Dict.values pre)
                  (Dict.values post) Hid Ht Hu Hd Hp [] w) as Hlog.
    replace (Dict.values (reminders w))
      with (Dict.values pre ++ r :: Dict.values post)%list
      by (rewrite Hw; unfold Dict.values; rewrite map_app; reflexivity).
    destruct (sync_loop now self (Dict.values pre ++ r :: Dict.values post) [] w)
      as [[items|e] w1]; cbn [snd] in *; [|exact Hlog].
    destruct (map_result _api_item_list items); cbn [snd log].
    + apply in_or_app. left. exact Hlog.
    + exact Hlog.
  - rewrite Hitems, Hitems0, Hw, Hw0. unfold Dict.values.
    rewrite !map_app, !flat_map_app. cbn [map flat_map snd].
    f_equal. unfold view_of at 1. rewrite Ht, Hu, py_eqb_refl, Hd.
    cbn [andb normalized]. rewrite Hp. reflexivity.
  - intros k' r' s' d Hin Ht' Hu' Hd' Hp'. rewrite Hitems.
    apply in_flat_map. exists r'. split.
    + unfold Dict.values. apply in_map_iff. exists (k', r'). split;
        [reflexivity|exact Hin].
    + unfold view_of. rewrite Ht', Hu', py_eqb_refl, Hd'.
      cbn [andb normalized]. rewrite Hp'. left. reflexivity.
Qed.

(** *** Removing *)

Lemma filter_absent {V : Type} (k : pyval) (d : Dict.t pyval V) :
  ~ In k (Dict.keys d) ->
  filter (fun kv => negb (py_eqb (fst kv) k)) d = d.
Proof.
  induction d as [|[k' v'] d IH]; intros H; cbn [filter fst].
  - reflexivity.
  - destruct (py_eqb k' k) eqn:E.
    + apply py_eqb_eq in E. subst k'. exfalso. apply H. left. reflexivity.
    + cbn [negb]. rewrite IH; [reflexivity|].
      intros Hin. apply H. right. exact Hin.
Qed.

Lemma del_filter {V : Type} (k : pyval) (d : Dict.t pyval V) :
  NoDup (Dict.keys d) -> In k (Dict.keys d) ->
  Dict.del py_eqb k d = Some (filter (fun kv => negb (py_eqb (fst kv) k)) d).
Proof.
  induction d as [|[k' v'] d IH]; intros Hnd Hin; cbn [Dict.del filter fst].
  - destruct Hin.
  - cbn [Dict.keys map fst] in Hnd, Hin. inversion Hnd as [|? ? Hnotin Hnd']; subst.
    destruct (py_eqb k k') eqn:E.
    + apply py_eqb_eq in E. subst k'. rewrite py_eqb_refl. cbn [negb].
      rewrite filter_absent; [reflexivity|exact Hnotin].
    + assert (E' : py_eqb k' k = false).
      { apply py_eqb_neq. intros ->. rewrite py_eqb_refl in E. discriminate. }
      rewrite E'. cbn [negb].
      destruct Hin as [Hin|Hin].
      * subst k'. rewrite py_eqb_refl in E. discriminate.
      * rewrite (IH Hnd' Hin). reflexivity.
Qed.


Lemma get_filter_key {V : Type} (p : pyval -> bool) (k : pyval)
    (d : Dict.t pyval V) :
  Dict.get py_eqb k (filter (fun kv => p (fst kv)) d)
  = if p k then Dict.get py_eqb k d else None.
Proof.
  induction d as [|[k' v'] d IH]; cbn [filter fst Dict.get].
  - destruct (p k); reflexivity.
  - destruct (py_eqb k k') eqn:E.
    + apply py_eqb_eq in E. subst k'.
      destruct (p k) eqn:Ep; cbn [Dict.get].
      * rewrite py_eqb_refl. reflexivity.
      * exact IH.
    + destruct (p k'); cbn [Dict.get]; [rewrite E|]; exact IH.
Qed.











(** *** Updating *)

(** C2, as the code has it.  For an update by the list's owner of a
    reminder that is found, owned by the caller and stored under its uid,
    in which the caller supplies no [last_fired]: the call succeeds and
    the stored [last_fired] after it is null, whatever it was before.
    The stored summary is kept when the caller's summary is empty or
    null, the stored [due] is kept only when the caller's [due] cannot be
    normalized (a null [due] becomes [now + 1 day]), the stored
    [user_id] is always kept, every other entry of the collection is
    unchanged, and the collection is saved once. *)
Theorem C2_update_without_last_fired_stores_null
    (now : datetime) (self : Entity) (call : ServiceCall) (item : ReminderItem)
    (w : World) (rs : list ReminderItem) (r : ReminderItem) (old : rawrec) :
  PyStr.nonempty (_attr_unique_id self) = true ->
  fst (_get_user_from_call call w) = Ok (PyStr (_user_id self)) ->
  load_reminders (_attr_unique_id self) (reminders w) = Ok rs ->
  filter (reminder_filter (_attr_unique_id self) (uid item)) rs = [r] ->
  user_id r = PyStr (_user_id self) ->
  Dict.get py_eqb (uid item) (reminders w) = Some old ->
  truthy (last_fired item) = false ->
  let out := async_update_reminder_item now self call item w in
  fst out = Ok tt /\
  saves (snd out) = (saves w ++ [reminders (snd out)])%list /\
  (forall k : pyval,
     k <> uid item ->
     Dict.get py_eqb k (reminders (snd out)) = Dict.get py_eqb k (reminders w)) /\
  exists rec : rawrec,
    Dict.get py_eqb (uid item) (reminders (snd out)) = Some rec /\
    rget rec "last_fired" = PyNone /\
    rget rec "summary"
    = py_or (summary item) (rget_default old "summary" (PyStr "")) /\
    rget rec "due"
    = match normalized now (due item) with
      | Some d => PyStr (isoformat d)
      | None => rget old "due"
      end /\
    rget rec "user_id" = rget old "user_id" /\
    rget rec "id" = uid item /\
    rget rec "list_id" = PyStr (_attr_unique_id self).
Proof.
  intros Hid Hctx Hload Hfind Howner Hold Hlf out.
  destruct (_get_user_from_call_frame call w)
    as [c [Hc [_ [Hr1 [Hs1 _]]]]].
  rewrite Hc in Hctx. injection Hctx as ->.
  pose (rec :=
    [("id", uid item);
     ("list_id", PyStr (_attr_unique_id self));
     ("summary", py_or (summary item) (rget_default old "summary" (PyStr "")));
     ("due", match normalized now (due item) with
             | Some d => PyStr (isoformat d)
             | None => rget old "due"
             end);
     ("user_id", rget old "user_id");
     ("last_fired", PyNone)] : rawrec).
  assert (Hout : exists w2 : World,
    reminders w2 = Dict.set py_eqb (uid item) rec (reminders w) /\
    saves w2 = saves w /\
    out = (_sync_reminders_to_items now self ;;;
           async_write_ha_state ;;;
           w3 <~ get_world ;; async_save (reminders w3)) w2).
  { subst out. unfold async_update_reminder_item. unfold bindM at 1.
    destruct (_get_user_from_call call w) as [[c|e] w1]; cbn [fst snd] in *;
      [|discriminate].
    injection Hc as ->. rewrite py_eqb_refl. cbn [negb].
    unfold bindM at 1. unfold get_world at 1.
    unfold bindM at 1. unfold _load_reminders, lift.
    rewrite Hr1, Hload.
    unfold bindM at 1.
    unfold _find_in_reminder_list, find_in_reminder_list.
    rewrite Hid. cbn [negb]. rewrite Hfind.
    assert (Eo : py_eqb (user_id r) (PyStr (_user_id self)) = true)
      by (apply py_eqb_eq; exact Howner).
    rewrite Eo. cbn [negb]. unfold ret at 1.
    unfold bindM at 1.
    pose proof (normalize_date_value now (due item) (uid item) w1) as Hv.
    pose proof (normalize_date_same_store now (due item) (uid item) w1) as Hn.
    destruct (normalize_date now (due item) (uid item) w1) as [[o|e] w2];
      cbn [fst snd] in *; [|discriminate].
    injection Hv as ->. destruct Hn as [_ [Hr2 [Hs2 _]]].
    unfold bindM at 1. unfold get_world at 1. cbv beta iota.
    rewrite Hr2, Hr1, Hold, Hlf.
    unfold bindM at 1. unfold ret at 1.
    unfold bindM at 1. unfold set_reminders at 1.
    eexists. split; [|split]. 3: reflexivity.
    - cbn [reminders]. reflexivity.
    - cbn [saves]. rewrite Hs2, Hs1. reflexivity. }
  destruct Hout as [w2 [Hrem [Hsav Hout]]].
  unfold bindM at 1 in Hout.
  destruct (_sync_reminders_to_items_view now self w2 Hid) as [Hok _].
  pose proof (_sync_reminders_to_items_same_store now self w2) as Hsame.
  destruct (_sync_reminders_to_items now self w2) as [[[]|e] w3];
    cbn [fst snd] in *; [|discriminate].
  destruct Hsame as [_ [Hr3 [Hs3 _]]].
  run_m. rewrite Hout. cbn [fst snd saves reminders].
  split; [reflexivity|]. split; [|split].
  - rewrite Hs3, Hsav. reflexivity.
  - intros k Hk. rewrite Hr3, Hrem. apply dict_get_set_ne. exact Hk.
  - exists rec. rewrite Hr3, Hrem.
    split; [apply dict_get_set_eq|]. repeat split.
Qed.

(** *** Creating *)

Lemma build_null_due (now : datetime) (uuid_hex : string)
    (uid0 : pyval) (l : string) (text ctx_uid : pyval) (w : World) :
  build now uuid_hex (mkReminderItemFactory uid0 (PyStr l) text PyNone) ctx_uid w
  = (Ok (mkReminderItem (py_or uid0 (PyStr uuid_hex)) (PyStr l) text
           (PyDatetime (now + DAY)) ctx_uid PyNone),
     w).
Proof. reflexivity. Qed.

End RepositoryProperties.

(** ** The time resolver: properties *)

Module ResolverProperties.

Import ReminderTimeResolver.
Import Run.


Lemma parse_midnight (minute_s : option string) :
  parse_hour_and_minute "midnight" minute_s = (Some 0, Some 0).
Proof.
  unfold parse_hour_and_minute.
  destruct (set_ minute_s) eqn:Eg.
  - replace (Regex.match_twenty_four_hour "{hour}:{minute}")
      with (@None (string * string)) by reflexivity.
    destruct (set_ (option_map (fun m => PyStr.strip (PyStr.lower m)) minute_s));
      reflexivity.
  - rewrite Eg. reflexivity.
Qed.

(** C9, evaluated.  ["midnight"] parses to hour 0 and minute 0, and
    [apply_time_of_day] then tests the hour for truth: with [hourNumber]
    equal to ["midnight"] and no [timePeriod] the clock time of the date
    is left as it was.  Tomorrow 15:30 refined with ["midnight"] is
    tomorrow 15:30, not tomorrow 00:00. *)
Theorem C9_midnight_leaves_time_of_day
    (now1 now2 result_date : datetime) (minute_s : option string) :
  parse_hour_and_minute "midnight" minute_s = (Some 0, Some 0) /\
  apply_time_of_day now1 now2 result_date None (Some "midnight") minute_s
  = Ok (let d := if toordinal result_date =? toordinal UNSET_DATE
                 then now1 else result_date in
        if d <? now2 then d + DAY else d) /\
  apply_time_of_day (mk 2024 5 10 15 30 0) (mk 2024 5 10 15 30 0)
    (mk 2024 5 11 15 30 0) None (Some "midnight") None
  = Ok (mk 2024 5 11 15 30 0) /\
  hour (mk 2024 5 11 15 30 0) = 15 /\
  minute (mk 2024 5 11 15 30 0) = 30.
Proof.
  split; [apply parse_midnight|]. split; [|repeat split].
  unfold apply_time_of_day.
  cbn [set_ slot_text PyStr.nonempty]. rewrite parse_midnight.
  reflexivity.
Qed.




End ResolverProperties.

(** ** The repository and the scheduler on concrete collections *)

Module RunProperties.

Import Run.

#[local] Existing Instance iso_text.

(** *** The scheduler *)





(** *** Authorization *)

(** Bob calls update on alice's list. *)
Lemma C3_witness :
  let out := async_update_reminder_item now0 alice (call_by "u-bob") new_text
               (world_of two_reminders) in
  fst out = Raise Unauthorized /\
  reminders (snd out) = two_reminders /\
  saves (snd out) = [].
Proof.
  destruct (C3_update_rejects_other_user now0 alice (call_by "u-bob") new_text
              (world_of two_reminders) (PyStr "u-bob"))
    as [H1 [H2 [H3 _]]].
  - reflexivity.
  - discriminate.
  - repeat split; assumption.
Defined.

(** *** Updating *)

(** Alice changes the text of "x" and supplies no [last_fired]: the stored
    [last_fired] was 2024-05-09T16:30:00 and is null afterwards. *)
Lemma C2_counterexample :
  let out := async_update_reminder_item now0 alice (call_by "u-alice") new_text
               (world_of two_reminders) in
  fst out = Ok tt /\
  option_map (fun r => rget r "last_fired")
    (Dict.get py_eqb (PyStr "x") two_reminders)
  = Some (PyStr "2024-05-09T16:30:00") /\
  option_map (fun r => rget r "last_fired")
    (Dict.get py_eqb (PyStr "x") (reminders (snd out)))
  = Some PyNone.
Proof. vm_compute. repeat split. Qed.

Lemma C2_witness :
  let out := async_update_reminder_item now0 alice (call_by "u-alice") new_text
               (world_of two_reminders) in
  fst out = Ok tt /\
  exists rec : rawrec,
    Dict.get py_eqb (PyStr "x") (reminders (snd out)) = Some rec /\
    rget rec "last_fired" = PyNone /\
    rget rec "summary" = PyStr "buy oat milk" /\
    rget rec "user_id" = PyStr "u-alice".
Proof.
  destruct (C2_update_without_last_fired_stores_null now0 alice (call_by "u-alice")
              new_text (world_of two_reminders)
              [mkReminderItem (PyStr "x") (PyStr "reminders_alice")
                 (PyStr "buy milk") (PyDatetime (now0 - SECOND))
                 (PyStr "u-alice") (PyDatetime (now0 - 23 * HOUR));
               mkReminderItem (PyStr "y") (PyStr "reminders_alice")
                 (PyStr "buy bread") (PyDatetime (now0 - SECOND))
                 (PyStr "u-alice") PyNone]
              (mkReminderItem (PyStr "x") (PyStr "reminders_alice")
                 (PyStr "buy milk") (PyDatetime (now0 - SECOND))
                 (PyStr "u-alice") (PyDatetime (now0 - 23 * HOUR)))
              (milk due_past (PyStr "2024-05-09T16:30:00")))
    as [Hok [_ [_ [rec [Hget [Hlf [Hsum [_ [Huser _]]]]]]]]];
    try reflexivity.
  split; [exact Hok|].
  exists rec. repeat split; assumption.
Defined.

(** *** Creating *)

(** C5, evaluated.  [normalize_date] turns a null due into [now + 1 day],
    so the branch of [build] that sets 09:00 is not taken: created on
    2024-05-10 at 15:30:00, a reminder with no due is due on 2024-05-11 at
    15:30:00, not at 09:00:00, and that is what the create call stores.
    Its [last_fired] is null. *)
Theorem C5_null_due_is_now_plus_one_day :
  (forall (anyfmt : IsoFormat) (now : datetime)
          (uuid_hex l : string) (uid0 text ctx_uid : pyval) (w : World),
     build (fmt := anyfmt) now uuid_hex
       (mkReminderItemFactory uid0 (PyStr l) text PyNone) ctx_uid w
     = (Ok (mkReminderItem (py_or uid0 (PyStr uuid_hex)) (PyStr l) text
              (PyDatetime (now + DAY)) ctx_uid PyNone),
        w)) /\
  now0 + DAY = mk 2024 5 11 15 30 0 /\
  now0 + DAY <> combine (toordinal (now0 + DAY)) 9 0 0 /\
  let out := async_create_reminder_item now0 "0f3c" alice (call_by "u-alice")
               no_due (world_of []) in
  fst out = Ok tt /\
  reminders (snd out)
  = [(PyStr "0f3c",
      record (PyStr "0f3c") (PyStr "reminders_alice") (PyStr "buy milk")
        (PyStr "2024-05-11T15:30:00") (PyStr "u-alice") PyNone)].
Proof.
  split; [intros; apply build_null_due|].
  split; [reflexivity|].
  split; [intros H; vm_compute in H; discriminate|].
  vm_compute. split; reflexivity.
Qed.

Lemma C10_witness :
  let out := async_create_reminder_item now0 "0f3c" alice (call_by "u-alice")
               no_due (world_of two_reminders) in
  exists (saved : store) (rec : rawrec),
    saves (snd out) = [saved] /\
    Dict.get py_eqb (PyStr "0f3c") saved = Some rec /\
    Dict.get py_eqb (PyStr "x") saved = Dict.get py_eqb (PyStr "x") two_reminders /\
    Dict.get py_eqb (PyStr "y") saved = Dict.get py_eqb (PyStr "y") two_reminders /\
    List.length saved = 3%nat.
Proof.
  destruct (C10_create_sets_one_entry now0 "0f3c" alice (call_by "u-alice") no_due
              (world_of two_reminders))
    as [saved [rec [Hs [_ [_ [_ [Hget [Hother Hlen]]]]]]]].
  - reflexivity.
  - exists saved, rec. split; [exact Hs|]. split; [exact Hget|].
    split; [apply Hother; discriminate|].
    split; [apply Hother; discriminate|].
    apply Hlen. reflexivity.
Defined.

(** *** Loading *)

(** [load_reminders] on a collection whose first record has a due string
    that does not parse raises [ValueError]; it does not return the
    well-formed record "y".  The same happens to a get call. *)
Lemma C6_counterexample :
  load_reminders "reminders_alice" bad_then_due = Raise ValueError /\
  load_reminders "reminders_alice" [(PyStr "y", bread due_past PyNone)]
  = Ok [bread_item] /\
  fst (async_get_reminder_items alice (call_by "u-alice") None
         (world_of bad_then_due))
  = Raise ValueError.
Proof. vm_compute. repeat split. Qed.

Lemma C6_witness :
  let out := _sync_reminders_to_items now0 alice (world_of bad_then_due) in
  fst out = Ok tt /\
  In (LogBadDateFormat (PyStr "x") "not-a-date") (log (snd out)) /\
  attr_reminder_items (snd out) = [bread_item].
Proof.
  destruct (C6_view_drops_malformed_due now0 alice (world_of bad_then_due)
              (world_of [(PyStr "y", bread due_past PyNone)])
              [] [(PyStr "y", bread due_past PyNone)] (PyStr "x")
              (milk (PyStr "not-a-date") PyNone) "not-a-date")
    as [Hok [Hlog [Hitems _]]]; try reflexivity.
  split; [exact Hok|]. split; [exact Hlog|].
  rewrite Hitems. reflexivity.
Defined.

(** *** Removing *)



End RunProperties.

(** ** Calendar arithmetic *)

Module DatetimeFacts.

Lemma DAY_pos : 0 < DAY.
Proof. reflexivity. Qed.

Lemma toordinal_add_days (d k : Z) : toordinal (d + DAY * k) = toordinal d + k.
Proof.
  unfold toordinal. rewrite (Z.mul_comm DAY k).
  apply Z.div_add. discriminate.
Qed.

Lemma mod_DAY_add_days (d k : Z) : (d + DAY * k) mod DAY = d mod DAY.
Proof. rewrite (Z.mul_comm DAY k). apply Z.mod_add. discriminate. Qed.

Lemma hour_add_days (d k : Z) : hour (d + DAY * k) = hour d.
Proof. unfold hour. rewrite mod_DAY_add_days. reflexivity. Qed.

Lemma minute_add_days (d k : Z) : minute (d + DAY * k) = minute d.
Proof.
  unfold minute. replace (DAY * k) with (24 * k * HOUR) by (unfold DAY; ring).
  rewrite Z.mod_add by discriminate. reflexivity.
Qed.

Lemma second_add_days (d k : Z) : second (d + DAY * k) = second d.
Proof.
  unfold second.
  replace (DAY * k) with (24 * 60 * k * MINUTE) by (unfold DAY, HOUR; ring).
  rewrite Z.mod_add by discriminate. reflexivity.
Qed.

Lemma microsecond_add_days (d k : Z) : microsecond (d + DAY * k) = microsecond d.
Proof.
  unfold microsecond.
  replace (DAY * k) with (24 * 60 * 60 * k * SECOND)
    by (unfold DAY, HOUR, MINUTE; ring).
  rewrite Z.mod_add by discriminate. reflexivity.
Qed.

Lemma weekday_range (d : Z) : 0 <= weekday d <= 6.
Proof.
  unfold weekday. pose proof (Z.mod_pos_bound (toordinal d + 6) 7). lia.
Qed.

Lemma weekday_add_days (d k : Z) :
  weekday (d + DAY * k) = (weekday d + k) mod 7.
Proof.
  unfold weekday. rewrite toordinal_add_days.
  rewrite Zplus_mod_idemp_l. f_equal. ring.
Qed.

(** The fields of [datetime.combine(date, time(h, m, s))]. *)
Lemma combine_fields (o h m s : Z) :
  0 <= h <= 23 -> 0 <= m <= 59 -> 0 <= s <= 59 ->
  toordinal (combine o h m s) = o /\
  hour (combine o h m s) = h /\
  minute (combine o h m s) = m /\
  second (combine o h m s) = s /\
  microsecond (combine o h m s) = 0.
Proof.
  intros Hh Hm Hs.
  unfold toordinal, hour, minute, second, microsecond, combine.
  unfold DAY, HOUR, MINUTE, SECOND.
  repeat split.
  - symmetry. apply (Z.div_unique_pos _ _ _
      (h * (60 * (60 * 1000000)) + m * (60 * 1000000) + s * 1000000)); lia.
  - replace (o * (24 * (60 * (60 * 1000000))) + h * (60 * (60 * 1000000))
             + m * (60 * 1000000) + s * 1000000)
      with ((h * (60 * (60 * 1000000)) + m * (60 * 1000000) + s * 1000000)
            + o * (24 * (60 * (60 * 1000000)))) by ring.
    rewrite Z.mod_add by discriminate.
    rewrite Z.mod_small by lia.
    symmetry. apply (Z.div_unique_pos _ _ _ (m * (60 * 1000000) + s * 1000000)); lia.
  - replace (o * (24 * (60 * (60 * 1000000))) + h * (60 * (60 * 1000000))
             + m * (60 * 1000000) + s * 1000000)
      with ((m * (60 * 1000000) + s * 1000000)
            + (o * 24 + h) * (60 * (60 * 1000000))) by ring.
    rewrite Z.mod_add by discriminate.
    rewrite Z.mod_small by lia.
    symmetry. apply (Z.div_unique_pos _ _ _ (s * 1000000)); lia.
  - replace (o * (24 * (60 * (60 * 1000000))) + h * (60 * (60 * 1000000))
             + m * (60 * 1000000) + s * 1000000)
      with (s * 1000000 + ((o * 24 + h) * 60 + m) * (60 * 1000000)) by ring.
    rewrite Z.mod_add by discriminate.
    rewrite Z.mod_small by lia.
    apply Z.div_mul. discriminate.
  - replace (o * (24 * (60 * (60 * 1000000))) + h * (60 * (60 * 1000000))
             + m * (60 * 1000000) + s * 1000000)
      with (0 + (((o * 24 + h) * 60 + m) * 60 + s) * 1000000) by ring.
    rewrite Z.mod_add by discriminate. reflexivity.
Qed.

End DatetimeFacts.

(** ** The time resolver: further properties *)

Module ResolverExtra.
Import ReminderTimeResolver.
Import DatetimeFacts.
Import Run.

Lemma day_name_range (key : string) (target : Z) :
  Dict.get String.eqb key DAY_NAME_TO_WEEKDAY = Some target -> 0 <= target <= 6.
Proof.
  unfold DAY_NAME_TO_WEEKDAY. cbn [Dict.get].
  repeat (destruct (String.eqb key _); [intros H; injection H as <-; lia|]).
  discriminate.
Qed.

(** X1. A weekday name resolves to the next day of that name strictly after
    today: between 1 and 7 days ahead, on the named weekday, at the clock
    time of [now]; said on that very weekday it is 7 days ahead. *)
Theorem handle_day_name_next_occurrence
    (now : datetime) (name : string) (target : Z) :
  Dict.get String.eqb (PyStr.lower name) DAY_NAME_TO_WEEKDAY = Some target ->
  exists k : Z,
    handle_day_name now name = Some (now + DAY * k) /\
    1 <= k <= 7 /\
    weekday (now + DAY * k) = target /\
    (weekday now = target -> k = 7) /\
    hour (now + DAY * k) = hour now /\
    minute (now + DAY * k) = minute now.
Proof.
  intros Hget. pose proof (day_name_range _ _ Hget) as Ht.
  pose proof (weekday_range now) as Hw.
  unfold handle_day_name. rewrite Hget.
  exists (if target - weekday now <=? 0
          then target - weekday now + 7 else target - weekday now).
  split; [reflexivity|].
  rewrite weekday_add_days, hour_add_days, minute_add_days.
  destruct (target - weekday now <=? 0) eqn:E.
  - apply Z.leb_le in E. repeat split; try lia.
    replace (weekday now + (target - weekday now + 7)) with (target + 1 * 7) by ring.
    rewrite Z.mod_add by discriminate. apply Z.mod_small. lia.
  - apply Z.leb_gt in E. repeat split; try lia.
    replace (weekday now + (target - weekday now)) with target by ring.
    apply Z.mod_small. lia.
Qed.

Lemma handle_day_name_witness :
  handle_day_name now0 "Fri" = Some (now0 + DAY * 7) /\
  handle_day_name now0 "monday" = Some (now0 + DAY * 3).
Proof.
  split.
  - destruct (handle_day_name_next_occurrence now0 "Fri" 4 eq_refl)
      as [k [H [Hk [_ [H7 _]]]]].
    rewrite H. rewrite (H7 eq_refl). reflexivity.
  - destruct (handle_day_name_next_occurrence now0 "monday" 0 eq_refl)
      as [k [H [Hk [Hw _]]]].
    rewrite H. f_equal. f_equal. f_equal.
    rewrite weekday_add_days in Hw.
    change (weekday now0) with 4 in Hw.
    assert (k = 1 \/ k = 2 \/ k = 3 \/ k = 4 \/ k = 5 \/ k = 6 \/ k = 7) as Hc by lia.
    destruct Hc as [-> | [-> | [-> | [-> | [-> | [-> | ->]]]]]]; try reflexivity;
      vm_compute in Hw; discriminate.
Defined.

Lemma saturday_ahead (wd : Z) :
  0 <= wd <= 6 ->
  0 <= (5 - wd) mod 7 <= 6 /\ (wd + (5 - wd) mod 7) mod 7 = 5
  /\ (wd + ((5 - wd) mod 7 + 7)) mod 7 = 5.
Proof.
  intros H.
  assert (wd = 0 \/ wd = 1 \/ wd = 2 \/ wd = 3 \/ wd = 4 \/ wd = 5 \/ wd = 6)
    as Hc by lia.
  destruct Hc as [-> | [-> | [-> | [-> | [-> | [-> | ->]]]]]]; vm_compute; intuition discriminate.
Qed.

(** X2. "this weekend" resolves to the coming Saturday, today if today is
    a Saturday (0 to 6 days ahead); "next weekend" to the Saturday a week
    after that one (7 to 13 days ahead).  The clock time of [now] is
    kept.  Letter case does not matter. *)
Theorem handle_relative_day_weekend (now : datetime) (text : string) :
  (PyStr.lower text = "this weekend" ->
   exists k : Z,
     handle_relative_day now text = Some (now + DAY * k) /\
     0 <= k <= 6 /\ weekday (now + DAY * k) = 5 /\
     hour (now + DAY * k) = hour now) /\
  (PyStr.lower text = "next weekend" ->
   exists k : Z,
     handle_relative_day now text = Some (now + DAY * k) /\
     7 <= k <= 13 /\ weekday (now + DAY * k) = 5 /\
     hour (now + DAY * k) = hour now).
Proof.
  pose proof (saturday_ahead (weekday now) (weekday_range now)) as [Hr [H1 H2]].
  split; intros Hl; unfold handle_relative_day; rewrite Hl;
    simpl (String.eqb _ _); cbv iota.
  - exists ((5 - weekday now) mod 7).
    rewrite weekday_add_days, hour_add_days.
    split; [|split; [exact Hr|split; [exact H1|reflexivity]]].
    destruct (((5 - weekday now) mod 7 =? 0) && (weekday now =? 5)) eqn:E;
      [|reflexivity].
    apply andb_true_iff in E. destruct E as [E _]. apply Z.eqb_eq in E.
    rewrite E, Z.mul_0_r, Z.add_0_r. reflexivity.
  - exists ((5 - weekday now) mod 7 + 7).
    rewrite weekday_add_days, hour_add_days.
    split; [reflexivity|]. split; [lia|]. split; [exact H2|reflexivity].
Qed.

Lemma handle_relative_day_weekend_witness :
  (exists k : Z,
     handle_relative_day now0 "This Weekend" = Some (now0 + DAY * k) /\
     0 <= k <= 6 /\ weekday (now0 + DAY * k) = 5 /\
     hour (now0 + DAY * k) = hour now0) /\
  (exists k : Z,
     handle_relative_day now0 "next weekend" = Some (now0 + DAY * k) /\
     7 <= k <= 13 /\ weekday (now0 + DAY * k) = 5 /\
     hour (now0 + DAY * k) = hour now0).
Proof.
  split.
  - exact (proj1 (handle_relative_day_weekend now0 "This Weekend") eq_refl).
  - exact (proj2 (handle_relative_day_weekend now0 "next weekend") eq_refl).
Defined.

(** X3. "tonight" resolves to 21:00:00 sharp, today when the hour of [now]
    is at most 21 and tomorrow when it is 22 or 23.  From 21:00 to 21:59
    the result is therefore today's 21:00, which is not after [now]. *)
Theorem handle_relative_day_tonight (now : datetime) (text : string) :
  PyStr.lower text = "tonight" ->
  exists r : datetime,
    handle_relative_day now text = Some r /\
    hour r = 21 /\ minute r = 0 /\ second r = 0 /\ microsecond r = 0 /\
    toordinal r = toordinal now + (if 21 <? hour now then 1 else 0) /\
    (hour now = 21 -> r <= now).
Proof.
  intros Hl. unfold handle_relative_day. rewrite Hl.
  simpl (String.eqb _ _). cbv iota.
  exists (combine (toordinal (if 21 <? hour now then now + DAY else now)) 21 0 0).
  split; [reflexivity|].
  destruct (combine_fields (toordinal (if 21 <? hour now then now + DAY else now))
              21 0 0) as [Ho [Hh [Hm [Hs Hu]]]]; try lia.
  rewrite Hh, Hm, Hs, Hu, Ho.
  repeat split.
  - destruct (21 <? hour now); [|lia].
    replace (now + DAY) with (now + DAY * 1) by ring.
    apply toordinal_add_days.
  - intros H21. rewrite H21. cbv iota beta delta [Z.ltb Z.compare Pos.compare Pos.compare_cont].
    unfold combine, toordinal, hour in *.
    pose proof (Z.div_mod now DAY ltac:(discriminate)) as Hd.
    pose proof (Z.mul_div_le (now mod DAY) HOUR ltac:(reflexivity)) as Hle.
    rewrite H21 in Hle. unfold DAY, HOUR, MINUTE, SECOND in *. lia.
Qed.

Lemma handle_relative_day_tonight_witness :
  exists r : datetime,
    handle_relative_day now0 "Tonight" = Some r /\
    hour r = 21 /\ minute r = 0 /\ second r = 0 /\ microsecond r = 0 /\
    toordinal r = toordinal now0 + (if 21 <? hour now0 then 1 else 0) /\
    (hour now0 = 21 -> r <= now0).
Proof. exact (handle_relative_day_tonight now0 "Tonight" eq_refl). Defined.

Lemma replace_time_ok (d h m : Z) (r : datetime) :
  replace_time d h m = Ok r ->
  0 <= h <= 23 /\ 0 <= m <= 59 /\ r = combine (toordinal d) h m 0.
Proof.
  unfold replace_time.
  destruct ((0 <=? h) && (h <=? 23) && (0 <=? m) && (m <=? 59)) eqn:E;
    [|discriminate].
  intros H. injection H as <-.
  repeat (apply andb_true_iff in E; destruct E as [E ?]).
  rewrite !Z.leb_le in *. lia.
Qed.

Lemma replace_time_fields (d h m : Z) (r : datetime) :
  replace_time d h m = Ok r ->
  toordinal r = toordinal d /\ hour r = h /\ minute r = m /\
  second r = 0 /\ microsecond r = 0.
Proof.
  intros H. apply replace_time_ok in H. destruct H as [Hh [Hm ->]].
  apply combine_fields; lia.
Qed.

Lemma time_period_range (key : string) (h : Z) :
  Dict.get String.eqb key TIME_PERIOD_TO_HOUR = Some h -> 0 <= h <= 23.
Proof.
  unfold TIME_PERIOD_TO_HOUR. cbn [Dict.get].
  repeat (destruct (String.eqb key _); [intros H; injection H as <-; lia|]).
  discriminate.
Qed.

(** X4. A known [timePeriod] (morning, afternoon, evening, night, in any
    letter case) sets the clock of the due time to its fixed hour, zero
    minutes, seconds and microseconds, whatever [hourNumber] and
    [minuteNumber] say. *)
Theorem apply_time_of_day_period
    (now1 now2 result_date : datetime) (period : string)
    (hour_s minute_s : option string) (h : Z) :
  PyStr.nonempty period = true ->
  Dict.get String.eqb (PyStr.lower period) TIME_PERIOD_TO_HOUR = Some h ->
  exists r : datetime,
    apply_time_of_day now1 now2 result_date (Some period) hour_s minute_s = Ok r /\
    hour r = h /\ minute r = 0 /\ second r = 0 /\ microsecond r = 0.
Proof.
  intros Hne Hget. pose proof (time_period_range _ _ Hget) as Hr.
  unfold apply_time_of_day. cbn [set_ slot_text]. rewrite Hne, Hget.
  set (base := if toordinal result_date =? toordinal UNSET_DATE
               then now1 else result_date).
  unfold replace_time.
  replace ((0 <=? h) && (h <=? 23) && (0 <=? 0) && (0 <=? 59)) with true
    by (symmetry; rewrite !andb_true_iff, !Z.leb_le; lia).
  cbn [bind].
  destruct (combine_fields (toordinal base) h 0 0) as [_ [Hh [Hm [Hs Hu]]]];
    try lia.
  eexists. split; [reflexivity|].
  destruct (combine (toordinal base) h 0 0 <? now2).
  - replace (combine (toordinal base) h 0 0 + DAY)
      with (combine (toordinal base) h 0 0 + DAY * 1) by apply f_equal, Z.mul_1_r.
    rewrite hour_add_days, minute_add_days, second_add_days, microsecond_add_days.
    repeat split; assumption.
  - repeat split; assumption.
Qed.

Lemma apply_time_of_day_period_witness :
  exists r : datetime,
    apply_time_of_day now0 now0 (mk 2024 5 12 7 45 10) (Some "Evening")
      (Some "3pm") None = Ok r /\
    hour r = 18 /\ minute r = 0 /\ second r = 0 /\ microsecond r = 0.
Proof.
  exact (apply_time_of_day_period now0 now0 (mk 2024 5 12 7 45 10) "Evening"
           (Some "3pm") None 18 eq_refl eq_refl).
Defined.

Lemma roll_forward_not_past (r0 now2 : datetime) :
  toordinal now2 <= toordinal r0 ->
  now2 <= (if r0 <? now2 then r0 + DAY else r0).
Proof.
  intros H. destruct (r0 <? now2) eqn:E.
  - unfold toordinal in H.
    pose proof (Z.mul_div_le r0 DAY DAY_pos) as H1.
    pose proof (Z.mul_succ_div_gt now2 DAY DAY_pos) as H2.
    rewrite Z.mul_succ_r in H2.
    assert (H3 : DAY * (now2 / DAY) <= DAY * (r0 / DAY))
      by (apply Z.mul_le_mono_nonneg_l; [discriminate|exact H]).
    unfold datetime in *. lia.
  - apply Z.ltb_ge in E. exact E.
Qed.

(** X5. The refinement never returns a due time in the past when the date
    it refines is today or later: whatever the time-of-day slots are, if
    [apply_time_of_day] returns [r] and the date (the current day when the
    date is the unset sentinel) is not before the day of [now2], then
    [now2 <= r]; and [r] is on that date or on the day after. *)
Theorem apply_time_of_day_not_past
    (now1 now2 result_date r : datetime)
    (period hour_s minute_s : option string) :
  apply_time_of_day now1 now2 result_date period hour_s minute_s = Ok r ->
  let base := if toordinal result_date =? toordinal UNSET_DATE
              then now1 else result_date in
  (toordinal r = toordinal base \/ toordinal r = toordinal base + 1) /\
  (toordinal now2 <= toordinal base -> now2 <= r).
Proof.
  intros H base. unfold apply_time_of_day in H. fold base in H.
  assert (Hmid : exists r0 : datetime,
            toordinal r0 = toordinal base /\
            r = if r0 <? now2 then r0 + DAY else r0).
  { destruct (set_ period).
    - destruct (Dict.get String.eqb (PyStr.lower (slot_text period))
                  TIME_PERIOD_TO_HOUR) as [h|].
      + destruct (replace_time base h 0) as [r0|e] eqn:E; [|discriminate].
        cbn [bind] in H. injection H as <-.
        exists r0. split; [|reflexivity].
        apply (replace_time_fields _ _ _ _ E).
      + cbn [bind] in H. injection H as <-. exists base. split; reflexivity.
    - destruct (set_ hour_s).
      + destruct (parse_hour_and_minute (slot_text hour_s) minute_s) as [ph pm].
        destruct (int_truthy ph).
        * destruct (replace_time base (int_or_0 ph) (int_or_0 pm)) as [r0|e] eqn:E;
            [|discriminate].
          cbn [bind] in H. injection H as <-.
          exists r0. split; [|reflexivity].
          apply (replace_time_fields _ _ _ _ E).
        * cbn [bind] in H. injection H as <-. exists base. split; reflexivity.
      + destruct (replace_time base 9 0) as [r0|e] eqn:E; [|discriminate].
        cbn [bind] in H. injection H as <-.
        exists r0. split; [|reflexivity].
        apply (replace_time_fields _ _ _ _ E). }
  destruct Hmid as [r0 [Hdate ->]]. split.
  - destruct (r0 <? now2); [right|left; exact Hdate].
    replace (r0 + DAY) with (r0 + DAY * 1) by apply f_equal, Z.mul_1_r.
    rewrite toordinal_add_days, Hdate. reflexivity.
  - intros Hle. apply roll_forward_not_past. rewrite Hdate. exact Hle.
Qed.

Lemma apply_time_of_day_not_past_witness :
  apply_time_of_day now0 now0 now0 None (Some "3pm") None
  = Ok (mk 2024 5 11 15 0 0) /\
  now0 <= mk 2024 5 11 15 0 0.
Proof.
  split; [reflexivity|].
  apply (apply_time_of_day_not_past now0 now0 now0 (mk 2024 5 11 15 0 0)
           None (Some "3pm") None eq_refl).
  vm_compute. discriminate.
Defined.

(** X6. An hour or a minute outside the clock is not caught: when
    [hourNumber] (with no [timePeriod]) parses to a non-zero hour above 23
    or to a minute above 59, [apply_time_of_day] raises [ValueError].
    "13pm" parses to hour 25. *)
Theorem apply_time_of_day_hour_out_of_range
    (now1 now2 result_date : datetime) (period : option string)
    (hour_s : string) (minute_s : option string) (ph pm : option Z) :
  set_ period = false ->
  PyStr.nonempty hour_s = true ->
  parse_hour_and_minute hour_s minute_s = (ph, pm) ->
  int_truthy ph = true ->
  23 < int_or_0 ph \/ 59 < int_or_0 pm ->
  apply_time_of_day now1 now2 result_date period (Some hour_s) minute_s
  = Raise ValueError.
Proof.
  intros Hp Hne Hparse Ht Hout.
  unfold apply_time_of_day. rewrite Hp. cbn [set_ slot_text].
  rewrite Hne, Hparse, Ht. unfold replace_time.
  replace ((0 <=? int_or_0 ph) && (int_or_0 ph <=? 23)
           && (0 <=? int_or_0 pm) && (int_or_0 pm <=? 59)) with false;
    [reflexivity|].
  symmetry. apply not_true_iff_false. intros E.
  rewrite !andb_true_iff, !Z.leb_le in E. lia.
Qed.

Lemma apply_time_of_day_hour_out_of_range_witness :
  parse_hour_and_minute "13pm" None = (Some 25, None) /\
  apply_time_of_day now0 now0 now0 None (Some "13pm") None = Raise ValueError /\
  apply_time_of_day now0 now0 now0 None (Some "3") (Some "75") = Raise ValueError.
Proof.
  split; [reflexivity|]. split.
  - apply (apply_time_of_day_hour_out_of_range now0 now0 now0 None "13pm" None
             (Some 25) None); try reflexivity.
    left. reflexivity.
  - apply (apply_time_of_day_hour_out_of_range now0 now0 now0 None "3" (Some "75")
             (Some 3) (Some 75)); try reflexivity.
    right. reflexivity.
Defined.

(** X7. A month with an ordinal that contains no digit is not caught: with
    no higher-priority slot set, a known month name and an ordinal such as
    "third", [parse_due_from_slots] raises [ValueError] (the [int(...)] of
    the stripped ordinal is outside the [try]). *)
Theorem month_ordinal_without_digits_raises
    (now now1 now2 : datetime) (sl : Slots) (m o : string) (month_num : Z) :
  set_ (relative_day sl) = false ->
  set_ (day_name sl) = false ->
  set_ (time_number sl) && set_ (time_unit sl) = false ->
  month_name sl = Some m ->
  Dict.get String.eqb (PyStr.lower m) MONTH_NAME_TO_NUMBER = Some month_num ->
  ordinal sl = Some o ->
  PyStr.nonempty o = true ->
  PyStr.only_digits o = "" ->
  parse_due_from_slots now now1 now2 sl = Raise ValueError.
Proof.
  intros Hrd Hdn Htn Hm Hget Ho Hne Hdig.
  assert (Hmne : PyStr.nonempty m = true).
  { destruct m; [discriminate Hget|reflexivity]. }
  unfold parse_due_from_slots. rewrite Hrd, Hdn, Htn, Hm, Ho.
  cbn [set_ slot_text]. rewrite Hmne, Hne. cbn [andb].
  unfold handle_month_name_with_ordinal. rewrite Hget, Hdig. reflexivity.
Qed.

Lemma month_ordinal_without_digits_raises_witness :
  parse_due_from_slots now0 now0 now0 march_third = Raise ValueError.
Proof.
  apply (month_ordinal_without_digits_raises now0 now0 now0 march_third
           "March" "third" 3); reflexivity.
Defined.

(** X8. A count that is not an integer does not fail: with no
    [relativeDay] and no [dayName], a [timeNumber] that [int] rejects and a
    [timeUnit] among minute(s) and hour(s), the resolved due is exactly
    [now + 1 day], and the time-of-day slots are ignored. *)
Theorem relative_time_bad_count_is_tomorrow
    (now now1 now2 : datetime) (sl : Slots) (tn u : string) :
  set_ (relative_day sl) = false ->
  set_ (day_name sl) = false ->
  time_number sl = Some tn ->
  PyStr.nonempty tn = true ->
  PyStr.int tn = None ->
  time_unit sl = Some u ->
  In u clock_units ->
  parse_due_from_slots now now1 now2 sl = Ok (now + DAY).
Proof.
  intros Hrd Hdn Htn Hne Hint Htu Hu.
  unfold parse_due_from_slots. rewrite Hrd, Hdn, Htn, Htu.
  cbn [set_ slot_text]. rewrite Hne.
  unfold handle_relative_time. rewrite Hint.
  cbn in Hu.
  repeat (destruct Hu as [<- | Hu]; [reflexivity|]). destruct Hu.
Qed.

Lemma relative_time_bad_count_is_tomorrow_witness :
  parse_due_from_slots now0 now0 now0 in_some_minutes
  = Ok (mk 2024 5 11 15 30 0).
Proof.
  apply (relative_time_bad_count_is_tomorrow now0 now0 now0 in_some_minutes
           "a few" "minutes"); try reflexivity.
  right. left. reflexivity.
Defined.

(** X9. With no date slot and no time-of-day slot set, the resolved due is
    09:00 of the current day if that is not before the current time, and
    09:00 of the next day otherwise. *)
Theorem parse_due_without_slots
    (now now1 now2 : datetime) (sl : Slots) :
  set_ (relative_day sl) = false ->
  set_ (day_name sl) = false ->
  set_ (time_number sl) && set_ (time_unit sl) = false ->
  set_ (month_name sl) && set_ (ordinal sl) = false ->
  is_in_relative_minutes (time_number sl) (time_unit sl) = false ->
  set_ (time_period sl) = false ->
  set_ (hour_number sl) = false ->
  parse_due_from_slots now now1 now2 sl
  = Ok (let nine := combine (toordinal now1) 9 0 0 in
        if nine <? now2 then nine + DAY else nine).
Proof.
  intros Hrd Hdn Htn Hmo Hrel Htp Hhn.
  unfold parse_due_from_slots. rewrite Hrd, Hdn, Htn, Hmo, Hrel.
  cbn [bind negb]. unfold apply_time_of_day.
  rewrite Z.eqb_refl, Htp, Hhn. reflexivity.
Qed.

Lemma parse_due_without_slots_witness :
  parse_due_from_slots now0 now0 now0 no_slots = Ok (mk 2024 5 11 9 0 0).
Proof.
  apply (parse_due_without_slots now0 now0 now0 no_slots); reflexivity.
Defined.

End ResolverExtra.

(** ** The repository and the scheduler: further properties *)

Section RepositoryExtra.

Context {fmt : IsoFormat}.

Ltac step_m :=
  unfold bindM, ret, raise, lift, get_world, logger, async_fire, async_call,
    set_reminders, async_save, async_write_ha_state,
    set_attr_reminder_items, set_attr_reminder_list in *;
  cbn [fst snd bus reminders saves calls log users state_writes
       attr_reminder_items attr_reminder_list] in *.

Lemma filter_two {A : Type} (f : A -> bool) (r1 r2 : A) (pre mid post : list A) :
  f r1 = true -> f r2 = true ->
  exists (a b : A) (l : list A),
    filter f (pre ++ r1 :: mid ++ r2 :: post) = a :: b :: l.
Proof.
  intros H1 H2. rewrite filter_app. cbn [filter]. rewrite H1.
  rewrite filter_app. cbn [filter]. rewrite H2.
  destruct (filter f pre) as [|a [|b l]]; cbn [app].
  - destruct (filter f mid) as [|c l]; cbn [app]; eauto.
  - eauto.
  - eauto.
Qed.

(** X10. What [find_in_reminder_list] returns.  A reminder it returns is
    in the list given, has the list id and the uid asked for, belongs to
    the caller and is the only one with that list id and uid; nothing is
    logged.  When it returns nothing, no reminder of the list has that
    uid, and one warning is logged.  Two reminders of the list with that
    uid make it raise [ValueError]. *)
Theorem find_in_reminder_list_result
    (unique_id : string) (ctx_uid uid0 : pyval) (rs : list ReminderItem)
    (w : World) :
  let out := find_in_reminder_list unique_id ctx_uid uid0 rs w in
  (forall r : ReminderItem,
     fst out = Ok (Some r) ->
     In r rs /\ list_id r = PyStr unique_id /\ uid r = uid0 /\
     user_id r = ctx_uid /\
     filter (reminder_filter unique_id uid0) rs = [r] /\ snd out = w) /\
  (fst out = Ok None ->
     (forall r : ReminderItem,
        In r rs -> list_id r = PyStr unique_id -> uid r <> uid0) /\
     log (snd out) = (log w ++ [LogItemNotFound uid0])%list) /\
  (forall (r1 r2 : ReminderItem) (pre mid post : list ReminderItem),
     rs = (pre ++ r1 :: mid ++ r2 :: post)%list ->
     reminder_filter unique_id uid0 r1 = true ->
     reminder_filter unique_id uid0 r2 = true ->
     out = (Raise ValueError, w)).
Proof.
  intros out. subst out. unfold find_in_reminder_list.
  assert (Htwo : forall (r1 r2 : ReminderItem) (pre mid post : list ReminderItem),
            rs = (pre ++ r1 :: mid ++ r2 :: post)%list ->
            reminder_filter unique_id uid0 r1 = true ->
            reminder_filter unique_id uid0 r2 = true ->
            exists a b l, filter (reminder_filter unique_id uid0) rs = a :: b :: l).
  { intros r1 r2 pre mid post -> H1 H2. apply filter_two; assumption. }
  destruct (filter (reminder_filter unique_id uid0) rs) as [|r [|r' more]] eqn:Ef.
  - step_m. split; [intros r H; discriminate|]. split.
    + intros _. split; [|reflexivity].
      intros r Hin Hl Hu.
      assert (Hf : In r (filter (reminder_filter unique_id uid0) rs)).
      { apply filter_In. split; [exact Hin|].
        unfold reminder_filter. rewrite Hl, Hu, !py_eqb_refl. reflexivity. }
      rewrite Ef in Hf. destruct Hf.
    + intros r1 r2 pre mid post Hrs H1 H2.
      destruct (Htwo _ _ _ _ _ Hrs H1 H2) as [a [b [l H]]]. discriminate.
  - assert (Hin : In r (filter (reminder_filter unique_id uid0) rs))
      by (rewrite Ef; left; reflexivity).
    apply filter_In in Hin. destruct Hin as [Hin Hf].
    unfold reminder_filter in Hf. apply andb_true_iff in Hf.
    destruct Hf as [Hl Hu]. apply py_eqb_eq in Hl, Hu.
    destruct (py_eqb (user_id r) ctx_uid) eqn:Eo; cbn [negb]; step_m.
    + apply py_eqb_eq in Eo. split; [|split].
      * intros r0 H. injection H as <-. repeat split; assumption.
      * intros H. discriminate.
      * intros r1 r2 pre mid post Hrs H1 H2.
        destruct (Htwo _ _ _ _ _ Hrs H1 H2) as [a [b [l H]]]. discriminate.
    + split; [intros r0 H; discriminate|]. split; [intros H; discriminate|].
      intros r1 r2 pre mid post Hrs H1 H2.
      destruct (Htwo _ _ _ _ _ Hrs H1 H2) as [a [b [l H]]]. discriminate.
  - step_m. split; [intros r0 H; discriminate|].
    split; [intros H; discriminate|]. intros. reflexivity.
Qed.

Lemma load_one_ok (unique_id : string) (r : rawrec) (o : option ReminderItem) :
  load_one unique_id r = Ok o ->
  truthy (rget r "id") = true /\ truthy (rget r "due") = true /\
  ((o = None /\ in_list unique_id r = false)
   \/ exists it, o = Some it /\ in_list unique_id r = true
                 /\ loaded_item unique_id it /\ uid it = rget r "id"
                 /\ user_id it = rget r "user_id").
Proof.
  unfold load_one, in_list.
  destruct (truthy (rget r "id")) eqn:Eid; cbn [negb orb]; [|discriminate].
  destruct (truthy (rget r "due")) eqn:Edue; cbn [negb]; [|discriminate].
  destruct (PyStr.nonempty unique_id); cbn [negb orb andb].
  - destruct (py_eqb (rget_default r "list_id" PyNone) (PyStr unique_id));
      cbn [negb].
    + intros H. split; [reflexivity|]. split; [reflexivity|]. right.
      destruct (truthy (rget_default r "last_fired" PyNone)).
      * destruct (py_fromisoformat (rget_default r "last_fired" PyNone)) as [t|e];
          cbn [bind] in H; [|discriminate].
        destruct (py_fromisoformat (rget r "due")) as [d|e];
          cbn [bind] in H; [|discriminate].
        injection H as <-. eexists. split; [reflexivity|].
        split; [reflexivity|]. split; [|split; reflexivity].
        repeat split; cbn; eauto.
      * cbn [bind] in H.
        destruct (py_fromisoformat (rget r "due")) as [d|e];
          cbn [bind] in H; [|discriminate].
        injection H as <-. eexists. split; [reflexivity|].
        split; [reflexivity|]. split; [|split; reflexivity].
        repeat split; cbn; eauto.
    + intros H. injection H as <-. repeat split. left. split; reflexivity.
  - intros H. injection H as <-. repeat split. left. split; reflexivity.
Qed.

Lemma load_loop_ok (unique_id : string) (rs : list rawrec) :
  forall acc out : list ReminderItem,
    load_loop unique_id rs acc = Ok out ->
    exists new : list ReminderItem,
      out = (acc ++ new)%list /\
      Forall (fun r => truthy (rget r "id") = true /\ truthy (rget r "due") = true)
        rs /\
      Forall (loaded_item unique_id) new /\
      List.length new = List.length (filter (in_list unique_id) rs).
Proof.
  induction rs as [|r rs IH]; intros acc out H; cbn [load_loop] in H.
  - injection H as <-. exists []. rewrite app_nil_r. repeat split; constructor.
  - destruct (load_one unique_id r) as [o|e] eqn:E; cbn [bind] in H;
      [|discriminate].
    destruct (load_one_ok _ _ _ E) as [Hid [Hdue Hc]].
    destruct Hc as [[-> Hin] | [it [-> [Hin [Hit _]]]]].
    + destruct (IH _ _ H) as [new [-> [Hall [Hnew Hlen]]]].
      exists new. split; [reflexivity|]. split; [constructor; auto|].
      split; [exact Hnew|]. cbn [filter]. rewrite Hin. exact Hlen.
    + destruct (IH _ _ H) as [new [-> [Hall [Hnew Hlen]]]].
      exists (it :: new). split; [rewrite <- app_assoc; reflexivity|].
      split; [constructor; auto|]. split; [constructor; assumption|].
      cbn [filter]. rewrite Hin. cbn [List.length]. rewrite Hlen. reflexivity.
Qed.

(** X11. What a successful [load_reminders] guarantees.  Every record of
    the whole collection, of whatever list, has a non-empty id and a
    non-empty due (one record without them makes the load raise); the
    items loaded are exactly as many as the records of the list, and each
    carries the list id, a non-empty uid, a parsed due and a last-fired
    time that is null or parsed. *)
Theorem load_reminders_ok
    (unique_id : string) (d : store) (rs : list ReminderItem) :
  load_reminders unique_id d = Ok rs ->
  Forall (fun r => truthy (rget r "id") = true /\ truthy (rget r "due") = true)
    (Dict.values d) /\
  Forall (loaded_item unique_id) rs /\
  List.length rs = List.length (filter (in_list unique_id) (Dict.values d)).
Proof.
  intros H. unfold load_reminders in H.
  destruct (load_loop_ok _ _ _ _ H) as [new [-> [Hall [Hnew Hlen]]]].
  cbn [app]. repeat split; assumption.
Qed.

(** X12. A get call without uids checks no authorization and changes
    nothing: on a collection that loads it returns the loaded reminders of
    the list whose owner is the resolved caller, in collection order (none
    for a caller who owns none), and leaves the collection, the saves and
    the entity's view as they were. *)
Theorem async_get_reminder_items_all
    (self : Entity) (call : ServiceCall) (uids : option (list string))
    (w : World) (rs : list ReminderItem) (ctx_uid : pyval) :
  uids = None \/ uids = Some [] ->
  load_reminders (_attr_unique_id self) (reminders w) = Ok rs ->
  fst (_get_user_from_call call w) = Ok ctx_uid ->
  let out := async_get_reminder_items self call uids w in
  fst out = Ok (filter (fun r => py_eqb (user_id r) ctx_uid) rs) /\
  reminders (snd out) = reminders w /\
  saves (snd out) = saves w /\
  attr_reminder_items (snd out) = attr_reminder_items w.
Proof.
  intros Hu Hload Hctx out. subst out.
  destruct (_get_user_from_call_frame call w)
    as [c [Hc [_ [Hr [Hs [_ [_ [_ [Hi _]]]]]]]]].
  rewrite Hc in Hctx. injection Hctx as ->.
  unfold async_get_reminder_items, _load_reminders.
  destruct (_get_user_from_call call w) as [[c|e] w1] eqn:E;
    cbn [fst snd] in *; [|discriminate].
  injection Hc as ->. step_m. rewrite E. rewrite Hr, Hload.
  destruct Hu as [-> | ->]; cbn [fst snd]; repeat split; assumption.
Qed.

Lemma get_loop_ok (self : Entity) (ctx_uid : pyval) (rs : list ReminderItem)
    (uids : list string) :
  PyStr.nonempty (_attr_unique_id self) = true ->
  Forall (owned_or_missing (_attr_unique_id self) ctx_uid rs) uids ->
  forall (acc : list ReminderItem) (w : World),
    let out := get_loop self ctx_uid rs uids acc w in
    fst out
    = Ok (acc ++ flat_map
                   (fun u => filter (reminder_filter (_attr_unique_id self) (PyStr u)) rs)
                   uids)%list /\
    reminders (snd out) = reminders w /\ saves (snd out) = saves w /\
    attr_reminder_items (snd out) = attr_reminder_items w.
Proof.
  intros Hid Hall. induction Hall as [|u rest Hu _ IH]; intros acc w out;
    subst out; cbn [get_loop flat_map].
  - unfold ret. cbn [fst snd]. rewrite app_nil_r. repeat split.
  - unfold _find_in_reminder_list, find_in_reminder_list, owned_or_missing in *.
    rewrite Hid. cbn [negb].
    destruct (filter (reminder_filter (_attr_unique_id self) (PyStr u)) rs)
      as [|r [|r' more]]; [| |destruct Hu].
    + step_m. cbn [app].
      match goal with
      | |- context [get_loop self ctx_uid rs rest acc ?W] =>
          destruct (IH acc W) as [H1 [H2 [H3 H4]]]
      end.
      cbn [reminders saves attr_reminder_items] in *. repeat split; assumption.
    + assert (Eo : py_eqb (user_id r) ctx_uid = true)
        by (apply py_eqb_eq; exact Hu).
      rewrite Eo. cbn [negb]. step_m.
      destruct (IH (acc ++ [r])%list w) as [H1 [H2 [H3 H4]]].
      rewrite H1, <- app_assoc. repeat split; assumption.
Qed.

(** X13. A get call with uids returns the reminders found, in the order of
    the uids given, skipping the uids that are not found: when each uid
    names no reminder of the list or exactly one, owned by the caller, the
    result is the concatenation, uid by uid, of the reminders of the list
    with that uid; nothing is changed. *)
Theorem async_get_reminder_items_by_uid
    (self : Entity) (call : ServiceCall) (u : string) (rest : list string)
    (w : World) (rs : list ReminderItem) (ctx_uid : pyval) :
  PyStr.nonempty (_attr_unique_id self) = true ->
  load_reminders (_attr_unique_id self) (reminders w) = Ok rs ->
  fst (_get_user_from_call call w) = Ok ctx_uid ->
  Forall (owned_or_missing (_attr_unique_id self) ctx_uid rs) (u :: rest) ->
  let out := async_get_reminder_items self call (Some (u :: rest)) w in
  fst out
  = Ok (flat_map
          (fun u => filter (reminder_filter (_attr_unique_id self) (PyStr u)) rs)
          (u :: rest)) /\
  reminders (snd out) = reminders w /\
  saves (snd out) = saves w.
Proof.
  intros Hid Hload Hctx Hall out. subst out.
  destruct (_get_user_from_call_frame call w)
    as [c [Hc [_ [Hr [Hs _]]]]].
  rewrite Hc in Hctx. injection Hctx as ->.
  destruct (_get_user_from_call call w) as [[c|e] w1] eqn:E;
    cbn [fst snd] in *; [|discriminate].
  injection Hc as ->.
  assert (Hout : async_get_reminder_items self call (Some (u :: rest)) w
                 = get_loop self ctx_uid rs (u :: rest) [] w1).
  { unfold async_get_reminder_items, _load_reminders. step_m.
    rewrite E, Hr, Hload. reflexivity. }
  destruct (get_loop_ok self ctx_uid rs (u :: rest) Hid Hall [] w1)
    as [H1 [H2 [H3 _]]].
  cbn [app] in H1.
  rewrite Hout. split; [exact H1|]. split.
  - transitivity (reminders w1); [exact H2|exact Hr].
  - transitivity (saves w1); [exact H3|exact Hs].
Qed.

(** X14. An update of a uid that no reminder of the list has is a no-op:
    for a call by the list's owner on a collection that loads, it returns
    normally, logs the miss, and leaves the collection, the saves, the
    state writes and the entity's view as they were. *)
Theorem async_update_unknown_uid
    (now : datetime) (self : Entity) (call : ServiceCall) (item : ReminderItem)
    (w : World) (rs : list ReminderItem) :
  PyStr.nonempty (_attr_unique_id self) = true ->
  fst (_get_user_from_call call w) = Ok (PyStr (_user_id self)) ->
  load_reminders (_attr_unique_id self) (reminders w) = Ok rs ->
  filter (reminder_filter (_attr_unique_id self) (uid item)) rs = [] ->
  let out := async_update_reminder_item now self call item w in
  fst out = Ok tt /\
  reminders (snd out) = reminders w /\
  saves (snd out) = saves w /\
  state_writes (snd out) = state_writes w /\
  attr_reminder_items (snd out) = attr_reminder_items w /\
  In (LogItemNotFound (uid item)) (log (snd out)).
Proof.
  intros Hid Hctx Hload Hfind out.
  destruct (_get_user_from_call_frame call w)
    as [c [Hc [_ [Hr [Hs [_ [_ [Hw [Hi _]]]]]]]]].
  rewrite Hc in Hctx. injection Hctx as ->.
  destruct (_get_user_from_call call w) as [[c|e] w1] eqn:E;
    cbn [fst snd] in *; [|discriminate].
  injection Hc as ->.
  assert (Hout : out = (Ok tt,
            mkWorld (users w1) (reminders w1) (saves w1) (bus w1) (calls w1)
              (log w1 ++ [LogItemNotFound (uid item)]) (state_writes w1)
              (attr_reminder_items w1) (attr_reminder_list w1))).
  { subst out. unfold async_update_reminder_item, _load_reminders,
      _find_in_reminder_list, find_in_reminder_list.
    step_m. rewrite E, py_eqb_refl. cbn [negb].
    rewrite <- Hr in Hload. rewrite Hload, Hid. cbn [negb].
    rewrite Hfind. reflexivity. }
  rewrite Hout. cbn [fst snd reminders saves state_writes attr_reminder_items log].
  repeat split; try assumption.
  apply in_or_app. right. left. reflexivity.
Qed.


Lemma del_absent {V : Type} (k : pyval) (d : Dict.t pyval V) :
  ~ In k (Dict.keys d) -> Dict.del py_eqb k d = None.
Proof.
  induction d as [|[k' v'] d IH]; intros H; cbn [Dict.del].
  - reflexivity.
  - destruct (py_eqb k k') eqn:Ek.
    + apply py_eqb_eq in Ek. subst k'. exfalso. apply H. left. reflexivity.
    + rewrite IH; [reflexivity|]. intros Hin. apply H. right. exact Hin.
Qed.

Lemma keys_filter_out {V : Type} (k : pyval) (d : Dict.t pyval V) :
  ~ In k (Dict.keys (filter (fun kv => negb (py_eqb (fst kv) k)) d)).
Proof.
  unfold Dict.keys. intros Hin. apply in_map_iff in Hin.
  destruct Hin as [[k' v'] [Hk Hin]]. cbn [fst] in Hk. subst k'.
  apply filter_In in Hin. destruct Hin as [_ Hf]. cbn [fst] in Hf.
  rewrite py_eqb_refl in Hf. discriminate.
Qed.

(** X16. A uid given twice makes remove fail: the loop looks the uids up
    in the list loaded before it started, so the second occurrence of a
    uid that was found, owned and deleted is found again, and deleting it
    again raises [KeyError].  The reminder is gone from the collection in
    memory, and nothing is saved.  The uids of the loaded reminders are
    taken to be strings, which the source needs to join them in its debug
    message before the loop. *)
Theorem remove_duplicate_uid_raises
    (now : datetime) (self : Entity) (call : ServiceCall)
    (u : string) (rest : list string) (w : World)
    (rs : list ReminderItem) (r : ReminderItem) :
  PyStr.nonempty (_attr_unique_id self) = true ->
  fst (_get_user_from_call call w) = Ok (PyStr (_user_id self)) ->
  load_reminders (_attr_unique_id self) (reminders w) = Ok rs ->
  Forall (fun r => exists s : string, uid r = PyStr s) rs ->
  NoDup (Dict.keys (reminders w)) ->
  filter (reminder_filter (_attr_unique_id self) (PyStr u)) rs = [r] ->
  user_id r = PyStr (_user_id self) ->
  In (PyStr u) (Dict.keys (reminders w)) ->
  let out := async_remove_reminder_items now self call (u :: u :: rest) w in
  fst out = Raise KeyError /\
  saves (snd out) = saves w /\
  Dict.get py_eqb (PyStr u) (reminders (snd out)) = None.
Proof.
  intros Hid Hctx Hload _ Hkeys Hfind Howner Hkey out.
  destruct (_get_user_from_call_frame call w)
    as [c [Hc [_ [Hr [Hs _]]]]].
  rewrite Hc in Hctx. injection Hctx as ->.
  destruct (_get_user_from_call call w) as [[c|e] w1] eqn:E;
    cbn [fst snd] in *; [|discriminate].
  injection Hc as ->.
  assert (Eo : py_eqb (user_id r) (PyStr (_user_id self)) = true)
    by (apply py_eqb_eq; exact Howner).
  assert (Hout : out = (Raise KeyError,
            mkWorld (users w1)
              (filter (fun kv => negb (py_eqb (fst kv) (PyStr u))) (reminders w))
              (saves w1) (bus w1) (calls w1) (log w1) (state_writes w1)
              (attr_reminder_items w1) (attr_reminder_list w1))).
  { subst out. unfold async_remove_reminder_items, _load_reminders.
    step_m. rewrite E, py_eqb_refl. cbn [negb]. rewrite Hr, Hload.
    cbn [remove_loop]. unfold remove_one, _find_in_reminder_list,
      find_in_reminder_list.
    rewrite Hid. cbn [negb]. rewrite Hfind, Eo. cbn [negb]. step_m.
    rewrite Hr, (del_filter (PyStr u) (reminders w) Hkeys Hkey).
    cbn [reminders].
    rewrite (del_absent (PyStr u) _ (keys_filter_out (PyStr u) (reminders w))).
    reflexivity. }
  rewrite Hout. cbn [fst snd saves reminders].
  split; [reflexivity|]. split; [exact Hs|].
  rewrite (get_filter_key (fun k => negb (py_eqb k (PyStr u)))).
  rewrite py_eqb_refl. reflexivity.
Qed.





Lemma map_result_length {A B : Type} (f : A -> result B) (l : list A)
    (out : list B) :
  map_result f l = Ok out -> List.length out = List.length l.
Proof.
  revert out. induction l as [|a l IH]; intros out H; cbn [map_result] in H.
  - injection H as <-. reflexivity.
  - destruct (f a) as [b|e]; cbn [bind] in H; [|discriminate].
    destruct (map_result f l) as [bs|e]; cbn [bind] in H; [|discriminate].
    injection H as <-. cbn [List.length]. rewrite (IH bs eq_refl). reflexivity.
Qed.

Lemma view_of_item (now : datetime) (self : Entity) (r : rawrec)
    (it : ReminderItem) :
  In it (view_of now self r) ->
  user_id it = PyStr (_user_id self) /\
  list_id it = PyStr (_attr_unique_id self) /\
  truthy (uid it) = true /\
  (List.length (view_of now self r) <= 1)%nat.
Proof.
  unfold view_of.
  destruct (truthy (rget r "id")) eqn:Et; cbn [andb]; [|intros []].
  destruct (py_eqb (rget r "user_id") (PyStr (_user_id self))) eqn:Eu;
    [|intros []].
  apply py_eqb_eq in Eu.
  destruct (normalized now (rget r "due")) as [d|]; [|intros []].
  intros [<- | []]. cbn. repeat split; auto.
Qed.

Lemma flat_map_length_le {A B : Type} (f : A -> list B) (l : list A) :
  (forall a, List.length (f a) <= 1)%nat ->
  (List.length (flat_map f l) <= List.length l)%nat.
Proof.
  intros H. induction l as [|a l IH]; cbn [flat_map List.length]; [lia|].
  rewrite length_app. specialize (H a). lia.
Qed.

(** X18. What the entity's view holds after it is loaded.  Every item of
    the view belongs to the entity's user and carries the entity's list id
    (whatever list id the stored record has), has a non-empty uid and a
    parsed due; the view has at most as many items as the collection has
    records, and the API list has one entry per item.  The load never
    raises, and it changes neither the collection nor the saves. *)
Theorem _sync_reminders_to_items_invariant
    (now : datetime) (self : Entity) (w : World) :
  PyStr.nonempty (_attr_unique_id self) = true ->
  let out := _sync_reminders_to_items now self w in
  fst out = Ok tt /\
  Forall (fun it =>
            user_id it = PyStr (_user_id self) /\
            list_id it = PyStr (_attr_unique_id self) /\
            truthy (uid it) = true /\
            exists d, due it = PyDatetime d)
    (attr_reminder_items (snd out)) /\
  (List.length (attr_reminder_items (snd out)) <= List.length (reminders w))%nat /\
  List.length (attr_reminder_list (snd out))
  = List.length (attr_reminder_items (snd out)) /\
  reminders (snd out) = reminders w /\ saves (snd out) = saves w.
Proof.
  intros Hid out.
  destruct (_sync_reminders_to_items_view now self w Hid) as [Hok Hitems].
  destruct (_sync_reminders_to_items_same_store now self w)
    as [_ [Hr [Hs _]]].
  fold out in Hok, Hitems, Hr, Hs.
  split; [exact Hok|]. split; [|split; [|split; [|split; assumption]]].
  - rewrite Hitems. apply Forall_forall. intros it Hin.
    apply in_flat_map in Hin. destruct Hin as [r [_ Hin]].
    destruct (view_of_item now self r it Hin) as [H1 [H2 [H3 _]]].
    destruct (view_of_due now self r it Hin) as [d Hd].
    repeat split; eauto.
  - rewrite Hitems. unfold Dict.values.
    rewrite <- (length_map snd (reminders w)).
    apply flat_map_length_le. intros r.
    unfold view_of. destruct (truthy (rget r "id") && _); cbn; [|lia].
    destruct (normalized now (rget r "due")); cbn; lia.
  - subst out. unfold _sync_reminders_to_items in *. step_m.
    destruct (sync_loop now self (Dict.values (reminders w)) [] w)
      as [[items|e] w1]; cbn [fst snd] in *; [|discriminate].
    destruct (map_result _api_item_list items) as [api|e] eqn:Eapi;
      cbn [fst snd attr_reminder_items attr_reminder_list] in *; [|discriminate].
    apply (map_result_length _ _ _ Eapi).
Qed.

(** X19. How [build] settles the due time.  Without a list id it raises
    [ValueError].  Otherwise it returns an item of the caller with a null
    last-fired time, and its due is: the datetime given; for a calendar
    date, that date at 09:00:00; for a string, what the string parses to,
    and tomorrow at 09:00:00 when it does not parse. *)
Theorem build_settles_due
    (now : datetime) (uuid_hex : string) (fac : ReminderItemFactory)
    (ctx_uid : pyval) (w : World) :
  let out := build now uuid_hex fac ctx_uid w in
  (f_list_id fac = PyNone -> fst out = Raise ValueError) /\
  (f_list_id fac <> PyNone ->
   exists d : datetime,
     fst out = Ok (mkReminderItem (py_or (f_uid fac) (PyStr uuid_hex))
                     (f_list_id fac) (f_summary fac) (PyDatetime d) ctx_uid
                     PyNone) /\
     (forall d0, f_due fac = PyDatetime d0 -> d = d0) /\
     (forall o, f_due fac = PyDate o ->
        toordinal d = o /\ hour d = 9 /\ minute d = 0 /\ second d = 0) /\
     (forall s d0, f_due fac = PyStr s -> fromisoformat s = Some d0 -> d = d0) /\
     (forall s, f_due fac = PyStr s -> fromisoformat s = None ->
        toordinal d = toordinal now + 1 /\ hour d = 9 /\ minute d = 0
        /\ second d = 0)).
Proof.
  intros out. subst out. unfold build.
  pose proof (normalize_date_value now (f_due fac)
                (py_or (f_uid fac) (PyStr uuid_hex)) w) as Hv.
  unfold bindM.
  destruct (normalize_date now (f_due fac) (py_or (f_uid fac) (PyStr uuid_hex)) w)
    as [[nd|e] w1]; cbn [fst] in Hv; [|discriminate].
  injection Hv as ->. split.
  - intros ->. reflexivity.
  - intros Hl.
    exists (match normalized now (f_due fac) with
            | Some d => d
            | None => combine (toordinal (now + DAY)) 9 0 0
            end).
    split.
    + destruct (f_list_id fac); [contradiction| | |]; reflexivity.
    + unfold normalized. split; [|split; [|split]].
      * intros d0 ->. reflexivity.
      * intros o' ->.
        pose proof (DatetimeFacts.combine_fields o' 9 0 0) as Hc.
        destruct Hc as [H1 [H2 [H3 [H4 _]]]]; [lia|lia|lia|].
        split; [exact H1|]. split; [exact H2|]. split; [exact H3|exact H4].
      * intros s d0 -> ->. reflexivity.
      * intros s -> ->.
        destruct (DatetimeFacts.combine_fields (toordinal (now + DAY)) 9 0 0)
          as [H1 [H2 [H3 [H4 _]]]]; [lia|lia|lia|].
        rewrite H1, H2, H3, H4. repeat split.
        replace (now + DAY) with (now + DAY * 1) by apply f_equal, Z.mul_1_r.
        apply DatetimeFacts.toordinal_add_days.
Qed.

Lemma contains_empty (s : string) : PyStr.contains "" s = true.
Proof. destruct s; reflexivity. Qed.

Lemma matching_loop_first (reminder_text : string) (rs : list ReminderItem)
    (r : ReminderItem) :
  matching_loop reminder_text rs = Ok (Some r) ->
  exists (pre post : list ReminderItem) (s : string),
    rs = (pre ++ r :: post)%list /\
    summary r = PyStr s /\
    PyStr.contains (PyStr.lower reminder_text) (PyStr.lower s) = true /\
    Forall (no_match reminder_text) pre.
Proof.
  induction rs as [|a rs IH]; cbn [matching_loop]; [discriminate|].
  destruct (summary a) as [|s| |] eqn:Es; try discriminate.
  destruct (PyStr.contains (PyStr.lower reminder_text) (PyStr.lower s)) eqn:Ec.
  - intros H. injection H as <-. exists [], rs, s. repeat split; auto.
  - intros H. destruct (IH H) as [pre [post [s' [-> [Hs [Hc Hpre]]]]]].
    exists (a :: pre), post, s'. repeat split; auto.
    constructor; [|exact Hpre]. exists s. split; assumption.
Qed.

(** X20. [matching_reminder] returns the first reminder, in collection
    order, of the list and the user whose summary contains the text,
    letter case aside: every reminder of the user before it has a summary
    without the text.  An empty text is contained in every summary, so it
    selects the user's first reminder.  The search changes nothing. *)
Theorem matching_reminder_first_match
    (reminder_text unique_id : string) (user : pyval) (w : World)
    (rs : list ReminderItem) :
  load_reminders unique_id (reminders w) = Ok rs ->
  let out := matching_reminder reminder_text unique_id user w in
  snd out = w /\
  (forall r : ReminderItem,
     fst out = Ok (Some r) ->
     exists (pre post : list ReminderItem) (s : string),
       reminders_of unique_id user rs = (pre ++ r :: post)%list /\
       summary r = PyStr s /\
       PyStr.contains (PyStr.lower reminder_text) (PyStr.lower s) = true /\
       Forall (no_match reminder_text) pre) /\
  (forall (r : ReminderItem) (rest : list ReminderItem) (s : string),
     reminders_of unique_id user rs = r :: rest ->
     summary r = PyStr s ->
     fst (matching_reminder "" unique_id user w) = Ok (Some r)).
Proof.
  intros Hload out.
  assert (Hout : forall text,
            matching_reminder text unique_id user w
            = (matching_loop text (reminders_of unique_id user rs), w)).
  { intros text. unfold matching_reminder, get_reminders. step_m.
    rewrite Hload. reflexivity. }
  subst out. rewrite Hout. cbn [fst snd]. split; [reflexivity|]. split.
  - intros r H. apply matching_loop_first. exact H.
  - intros r rest s Hmine Hs. rewrite Hout, Hmine. cbn [fst matching_loop].
    rewrite Hs. cbn [PyStr.lower]. rewrite contains_empty. reflexivity.
Qed.










Lemma async_get_user_id (us : list User) (id : string) (u : User) :
  async_get_user us id = Some u -> u_id u = id /\ In u us.
Proof.
  unfold async_get_user. intros H. apply find_some in H.
  destruct H as [Hin He]. apply String.eqb_eq in He. split; assumption.
Qed.

(** X23. Who a call is made by.  [_get_user_from_call] answers with the
    id of the call's context user, and changes nothing, exactly when that
    id is a non-empty string that the user registry knows; in every other
    case (no context user, an empty id, an id the registry does not know)
    it answers null and logs one warning.  It never raises and never
    answers with an id other than the context's. *)
Theorem _get_user_from_call_result (call : ServiceCall) (w : World) :
  let out := _get_user_from_call call w in
  (exists id : string,
     context_user_id call = PyStr id /\ PyStr.nonempty id = true /\
     In id (map u_id (users w)) /\
     out = (Ok (PyStr id), w))
  \/
  ((forall id : string,
      context_user_id call = PyStr id -> PyStr.nonempty id = true ->
      ~ In id (map u_id (users w))) /\
   fst out = Ok PyNone /\
   log (snd out) = (log w ++ [LogUnknownUser (context_user_id call)])%list /\
   reminders (snd out) = reminders w /\ saves (snd out) = saves w).
Proof.
  unfold _get_user_from_call. step_m.
  destruct (context_user_id call) as [|id| |] eqn:Ec;
    try (right; split; [intros id' H; discriminate|repeat split]).
  destruct (PyStr.nonempty id) eqn:En.
  - destruct (async_get_user (users w) id) as [u|] eqn:Eu.
    + destruct (async_get_user_id _ _ _ Eu) as [Hid Hin].
      left. exists id. split; [reflexivity|]. split; [exact En|].
      split; [|rewrite Hid; reflexivity].
      apply in_map_iff. exists u. split; assumption.
    + right. split; [|repeat split].
      intros id' H _ Hin. injection H as <-.
      apply in_map_iff in Hin. destruct Hin as [v [Hv Hin]].
      unfold async_get_user in Eu.
      apply (find_none _ _ Eu) in Hin. rewrite Hv, String.eqb_refl in Hin.
      discriminate.
  - right. split; [|repeat split].
    intros id' H Hne. injection H as <-. rewrite En in Hne. discriminate.
Qed.


End RepositoryExtra.

(** ** Further properties on concrete collections *)

Module RunExtra.

Import Run.

#[local] Existing Instance iso_text.

Lemma two_reminders_load :
  load_reminders "reminders_alice" two_reminders = Ok two_items.
Proof. vm_compute. reflexivity. Qed.

Lemma with_stray_load :
  load_reminders "reminders_alice" with_stray = Ok stray_items.
Proof. vm_compute. reflexivity. Qed.

(** "y" is found for alice; "q" is not found, with a warning; a list that
    holds "y" twice makes the search raise. *)
Lemma find_in_reminder_list_witness :
  (In bread_item two_items /\ user_id bread_item = PyStr "u-alice") /\
  log (snd (find_in_reminder_list "reminders_alice" (PyStr "u-alice")
              (PyStr "q") two_items (world_of [])))
  = [LogItemNotFound (PyStr "q")] /\
  find_in_reminder_list "reminders_alice" (PyStr "u-alice") (PyStr "y")
    (two_items ++ [bread_item]) (world_of [])
  = (Raise ValueError, world_of []).
Proof.
  split; [|split].
  - destruct (find_in_reminder_list_result "reminders_alice" (PyStr "u-alice")
                (PyStr "y") two_items (world_of [])) as [H _].
    destruct (H bread_item eq_refl) as [H1 [_ [_ [H2 _]]]].
    split; assumption.
  - destruct (find_in_reminder_list_result "reminders_alice" (PyStr "u-alice")
                (PyStr "q") two_items (world_of [])) as [_ [H _]].
    destruct (H eq_refl) as [_ H2]. exact H2.
  - destruct (find_in_reminder_list_result "reminders_alice" (PyStr "u-alice")
                (PyStr "y") (two_items ++ [bread_item]) (world_of []))
      as [_ [_ H]].
    exact (H bread_item bread_item [milk_item] [] [] eq_refl eq_refl eq_refl).
Defined.

Lemma load_reminders_witness :
  Forall (fun r => truthy (rget r "id") = true /\ truthy (rget r "due") = true)
    (Dict.values two_reminders) /\
  Forall (loaded_item "reminders_alice") two_items /\
  List.length two_items = 2%nat.
Proof.
  exact (load_reminders_ok "reminders_alice" two_reminders two_items
           two_reminders_load).
Defined.

(** Bob lists his reminders through alice's entity: he gets the stray one. *)
Lemma async_get_reminder_items_all_witness :
  let out := async_get_reminder_items alice (call_by "u-bob") None
               (world_of with_stray) in
  fst out = Ok [stray_item] /\
  reminders (snd out) = with_stray /\
  saves (snd out) = [] /\
  attr_reminder_items (snd out) = [].
Proof.
  exact (async_get_reminder_items_all alice (call_by "u-bob") None
           (world_of with_stray) stray_items (PyStr "u-bob")
           (or_introl eq_refl) with_stray_load eq_refl).
Defined.

(** Alice asks for "y", "q" and "x": "q" is skipped. *)
Lemma async_get_reminder_items_by_uid_witness :
  let out := async_get_reminder_items alice (call_by "u-alice")
               (Some ["y"; "q"; "x"]) (world_of two_reminders) in
  fst out = Ok [bread_item; milk_item] /\
  reminders (snd out) = two_reminders /\
  saves (snd out) = [].
Proof.
  refine (async_get_reminder_items_by_uid alice (call_by "u-alice")
            "y" ["q"; "x"] (world_of two_reminders) two_items (PyStr "u-alice")
            eq_refl two_reminders_load eq_refl _).
  repeat constructor.
Defined.

Lemma async_update_unknown_uid_witness :
  let out := async_update_reminder_item now0 alice (call_by "u-alice")
               unknown_text (world_of two_reminders) in
  fst out = Ok tt /\
  reminders (snd out) = two_reminders /\
  saves (snd out) = [] /\
  state_writes (snd out) = 0%nat /\
  attr_reminder_items (snd out) = [] /\
  In (LogItemNotFound (PyStr "q")) (log (snd out)).
Proof.
  exact (async_update_unknown_uid now0 alice (call_by "u-alice") unknown_text
           (world_of two_reminders) two_items eq_refl eq_refl
           two_reminders_load eq_refl).
Defined.


Lemma two_reminders_keys : NoDup (Dict.keys two_reminders).
Proof.
  repeat constructor; cbn; intuition discriminate.
Qed.

Lemma remove_duplicate_uid_raises_witness :
  let out := async_remove_reminder_items now0 alice (call_by "u-alice")
               ["x"; "x"; "y"] (world_of two_reminders) in
  fst out = Raise KeyError /\
  saves (snd out) = [] /\
  Dict.get py_eqb (PyStr "x") (reminders (snd out)) = None.
Proof.
  refine (remove_duplicate_uid_raises now0 alice (call_by "u-alice") "x" ["y"]
            (world_of two_reminders) two_items milk_item
            eq_refl eq_refl two_reminders_load _ two_reminders_keys
            eq_refl eq_refl (or_introl eq_refl)).
  repeat constructor; eexists; reflexivity.
Defined.

Lemma _sync_reminders_to_items_invariant_witness :
  let out := _sync_reminders_to_items now0 alice (world_of with_stray) in
  fst out = Ok tt /\
  Forall (fun it =>
            user_id it = PyStr "u-alice" /\
            list_id it = PyStr "reminders_alice" /\
            truthy (uid it) = true /\
            exists d, due it = PyDatetime d)
    (attr_reminder_items (snd out)) /\
  (List.length (attr_reminder_items (snd out)) <= 2)%nat /\
  List.length (attr_reminder_list (snd out))
  = List.length (attr_reminder_items (snd out)) /\
  reminders (snd out) = with_stray /\ saves (snd out) = [].
Proof.
  exact (_sync_reminders_to_items_invariant now0 alice (world_of with_stray)
           eq_refl).
Defined.

(** Without a list id the build raises; with a calendar date the item is
    due that day at nine. *)
Lemma build_settles_due_witness :
  fst (build now0 "abc123" call_mom (PyStr "u-alice") (world_of []))
  = Raise ValueError /\
  exists d : datetime,
    fst (build now0 "abc123" on_a_date (PyStr "u-alice") (world_of []))
    = Ok (mkReminderItem (PyStr "abc123") (PyStr "reminders_alice")
            (PyStr "call mom") (PyDatetime d) (PyStr "u-alice") PyNone) /\
    toordinal d = toordinal (mk 2024 5 12 0 0 0) /\ hour d = 9.
Proof.
  split.
  - destruct (build_settles_due now0 "abc123" call_mom (PyStr "u-alice")
                (world_of [])) as [H _].
    exact (H eq_refl).
  - destruct (build_settles_due now0 "abc123" on_a_date (PyStr "u-alice")
                (world_of [])) as [_ H].
    destruct H as [d [H1 [_ [H2 _]]]]; [discriminate|].
    destruct (H2 _ eq_refl) as [Ho [Hh _]].
    exists d. split; [exact H1|]. split; assumption.
Defined.

(** The empty text selects alice's first reminder. *)
Lemma matching_reminder_first_match_witness :
  snd (matching_reminder "BREAD" "reminders_alice" (PyStr "u-alice")
         (world_of two_reminders))
  = world_of two_reminders /\
  fst (matching_reminder "" "reminders_alice" (PyStr "u-alice")
         (world_of two_reminders))
  = Ok (Some milk_item).
Proof.
  destruct (matching_reminder_first_match "BREAD" "reminders_alice"
              (PyStr "u-alice") (world_of two_reminders) two_items
              two_reminders_load) as [H1 [_ H3]].
  split; [exact H1|].
  exact (H3 milk_item [bread_item] "buy milk" eq_refl eq_refl).
Defined.





(** Alice is identified by her context id; an id the registry does not
    know gives null and a warning. *)
Lemma _get_user_from_call_witness :
  _get_user_from_call (call_by "u-alice") (world_of [])
  = (Ok (PyStr "u-alice"), world_of []) /\
  fst (_get_user_from_call (call_by "u-carol") (world_of [])) = Ok PyNone /\
  log (snd (_get_user_from_call (call_by "u-carol") (world_of [])))
  = [LogUnknownUser (PyStr "u-carol")].
Proof.
  split.
  - destruct (_get_user_from_call_result (call_by "u-alice") (world_of []))
      as [[id [Hc [_ [_ H]]]] | [_ [H _]]].
    + injection Hc as <-. exact H.
    + discriminate H.
  - destruct (_get_user_from_call_result (call_by "u-carol") (world_of []))
      as [[id [_ [_ [_ H]]]] | [_ [H1 [H2 _]]]].
    + discriminate H.
    + split; assumption.
Defined.


End RunExtra.
